(** * LoginScreen: the stepwise login flow of [src/auth/ui/LoginScreen.tsx]

    A shallow embedding of the React component [LoginScreen]: its five
    [useState] cells, the handlers that update them, the callbacks it hands
    to [setTimeout], the [useEffect] hook keyed on [step], and [renderStep].

    Conventions of the embedding.
    - A JavaScript string is a [string]; one [ascii] stands for one code
      unit.  The component only measures lengths, takes the last code unit,
      and compares against the characters 0-9 and the empty string, so the
      size of the alphabet plays no role.  Notification texts are carried
      verbatim and never inspected.
    - The component state is a record; the React setters are record updates.
      A handler is a function [state -> state] applied to the state of the
      render that created it (React re-renders between two events, so this is
      the current state).
    - [setTimeout] appends to a queue of pending callbacks.  The arrow
      functions passed to it are defunctionalised into [callback], with the
      variables they capture as arguments.  None of them reads component
      state through its closure: they only call setters.
    - [Math.random() > 0.92] is an input of [startFacialRecognition]. *)

From Stdlib Require Import String Ascii List Bool Arith Lia.
From stdpp Require Import base list.
Import ListNotations.
Local Open Scope string_scope.
Local Open Scope nat_scope.

(** ** Data model *)

(** [type LoginStep = 'INITIAL' | ... | 'SUCCESS'] is a string at run time:
    [renderStep] switches on it and has a [default] branch. *)
Definition LoginStep := string.

Definition INITIAL : LoginStep := "INITIAL".
Definition FACIAL_RECOGNITION : LoginStep := "FACIAL_RECOGNITION".
Definition MANUAL_DNI : LoginStep := "MANUAL_DNI".
Definition MANUAL_CODE : LoginStep := "MANUAL_CODE".
Definition SUCCESS : LoginStep := "SUCCESS".

(** ['success' | 'error' | 'info'] *)
Inductive NotificationType := type_success | type_error | type_info.

(** [{ message: string; type?: ... }] *)
Record Notification := mkNotification {
  message : string;
  type : option NotificationType
}.

(** The arrow functions handed to [setTimeout], with what they capture. *)
Inductive callback :=
| ClearNotification                   (* () => setNotification(null)        l.32 *)
| FocusFirstCell                      (* () => codeRefs.current[0]?.focus() l.38 *)
| CallOnLogin                         (* () => onLogin(...)                 l.41 *)
| CameraOutcome (cameraFails : bool)  (* the probe's outcome                l.56 *)
| GoToSuccess                         (* () => setStep('SUCCESS')      l.63, 117 *)
| CodeOutcome (enteredCode : string). (* the verification's outcome        l.113 *)

(** A cell of the [code] array.  [None] is a hole (or [undefined]), which
    only an out-of-range write can create; [Some s] is the string [s]. *)
Definition cell := option string.

Record state := mkState {
  step : LoginStep;
  dni : string;
  code : list cell;
  isLoading : bool;
  notification : option Notification;
  (** the code cell on which [focus()] was last requested through [codeRefs] *)
  focused : option nat;
  (** pending [setTimeout] callbacks with the milliseconds left, in the order
      in which they were scheduled *)
  timers : list (nat * callback);
  (** observation only: arguments of the calls to [validateCode], and the
      callbacks the event loop has run; no code path reads these two *)
  validateCalls : list string;
  fired : list callback
}.

Definition emptyCode : list cell :=
  [Some ""; Some ""; Some ""; Some ""; Some ""; Some ""].

(** The state of the first render (the [useState] initial values). *)
Definition initialState : state :=
  mkState INITIAL "" emptyCode false None None [] [] [].

(** ** Setters *)

Definition setStep (x : LoginStep) (s : state) : state :=
  mkState x (dni s) (code s) (isLoading s) (notification s) (focused s)
          (timers s) (validateCalls s) (fired s).

Definition setDni (x : string) (s : state) : state :=
  mkState (step s) x (code s) (isLoading s) (notification s) (focused s)
          (timers s) (validateCalls s) (fired s).

Definition setCode (x : list cell) (s : state) : state :=
  mkState (step s) (dni s) x (isLoading s) (notification s) (focused s)
          (timers s) (validateCalls s) (fired s).

Definition setIsLoading (x : bool) (s : state) : state :=
  mkState (step s) (dni s) (code s) x (notification s) (focused s)
          (timers s) (validateCalls s) (fired s).

Definition setNotification (x : option Notification) (s : state) : state :=
  mkState (step s) (dni s) (code s) (isLoading s) x (focused s)
          (timers s) (validateCalls s) (fired s).

(** [codeRefs.current[i]?.focus()] *)
Definition focusCell (i : nat) (s : state) : state :=
  mkState (step s) (dni s) (code s) (isLoading s) (notification s) (Some i)
          (timers s) (validateCalls s) (fired s).

Definition setTimers (x : list (nat * callback)) (s : state) : state :=
  mkState (step s) (dni s) (code s) (isLoading s) (notification s) (focused s)
          x (validateCalls s) (fired s).

(** [setTimeout(cb, ms)]: nothing in the component ever calls
    [clearTimeout], so a queued callback always runs. *)
Definition setTimeout (cb : callback) (ms : nat) (s : state) : state :=
  setTimers (timers s ++ [(ms, cb)]) s.

Definition recordValidateCall (enteredCode : string) (s : state) : state :=
  mkState (step s) (dni s) (code s) (isLoading s) (notification s) (focused s)
          (timers s) (validateCalls s ++ [enteredCode]) (fired s).

Definition recordFired (cb : callback) (s : state) : state :=
  mkState (step s) (dni s) (code s) (isLoading s) (notification s) (focused s)
          (timers s) (validateCalls s) (fired s ++ [cb]).

(** ** Strings and arrays as JavaScript has them *)

(** [s.slice(-1)]: the last code unit, or the empty string. *)
Fixpoint slice_last (s : string) : string :=
  match s with
  | EmptyString => ""
  | String c EmptyString => String c ""
  | String _ rest => slice_last rest
  end.

Definition is_digit (c : ascii) : bool :=
  (48 <=? nat_of_ascii c) && (nat_of_ascii c <=? 57).

(** [/\D/.test(s)]: some code unit of [s] is not one of 0-9. *)
Fixpoint test_nondigit (s : string) : bool :=
  match s with
  | EmptyString => false
  | String c rest => negb (is_digit c) || test_nondigit rest
  end.

(** [a[i] = v] on a copy of the array: in range it replaces the element;
    past the end JavaScript grows the array, leaving holes. *)
Definition array_set (i : nat) (v : string) (a : list cell) : list cell :=
  if i <? length a then <[i := Some v]> a
  else a ++ replicate (i - length a) None ++ [Some v].

(** [a.every(d => d !== '')]: holes are skipped, [undefined] passes. *)
Definition every_nonempty (a : list cell) : bool :=
  forallb (fun d => match d with
                    | None => true
                    | Some x => negb (String.eqb x "")
                    end) a.

(** [a.join('')]: holes and [undefined] print as the empty string. *)
Fixpoint join (a : list cell) : string :=
  match a with
  | [] => ""
  | None :: rest => join rest
  | Some x :: rest => (x ++ join rest)%string
  end.

(** ** Handlers *)

(** [showNotification] (l.30-33) *)
Definition showNotification (msg : string) (t : option NotificationType)
    (s : state) : state :=
  setTimeout ClearNotification 2500
    (setNotification (Some (mkNotification msg t)) s).

(** [startFacialRecognition] (l.50-66); [cameraFails] is the value drawn
    on l.51. *)
Definition startFacialRecognition (cameraFails : bool) (s : state) : state :=
  setTimeout (CameraOutcome cameraFails) 3000
    (setIsLoading true (setStep FACIAL_RECOGNITION s)).

(** [handleDniSubmit] (l.68-75) *)
Definition handleDniSubmit (s : state) : state :=
  if negb (String.length (dni s) =? 8) then
    showNotification "El DNI debe tener exactamente 8 dígitos"
                     (Some type_error) s
  else
    setStep MANUAL_CODE
      (showNotification
         ("📧 Enviando código a correo asociado al DNI " ++ dni s)%string
         (Some type_info) s).

(** [validateCode] (l.104-124) *)
Definition validateCode (enteredCode : string) (s : state) : state :=
  let s := recordValidateCall enteredCode s in
  let s := setIsLoading true s in
  if String.length enteredCode <? 6 then
    setIsLoading false
      (showNotification "Ingrese los 6 dígitos del código" (Some type_error) s)
  else
    setTimeout (CodeOutcome enteredCode) 1500 s.

(** [() => validateCode()] (l.158): the default argument is
    [code.join('')]. *)
Definition validateCode_default (s : state) : state :=
  validateCode (join (code s)) s.

(** [handleCodeChange] (l.77-102); [raw] is [e.target.value]. *)
Definition handleCodeChange (raw : string) (i : nat) (s : state) : state :=
  let value := slice_last raw in
  if String.eqb value "" then
    let s := setCode (array_set i "" (code s)) s in
    if 0 <? i then focusCell (i - 1) s else s
  else if test_nondigit value then s
  else
    let newCode := array_set i value (code s) in
    let s := setCode newCode s in
    let s := if negb (String.eqb value "") && (i <? 5)
             then focusCell (i + 1) s else s in
    if (i =? 5) && every_nonempty newCode
    then validateCode (join newCode) s
    else s.

(** ** Timer callbacks *)

Definition run_callback (cb : callback) (s : state) : state :=
  match cb with
  | ClearNotification => setNotification None s
  | FocusFirstCell => focusCell 0 s
  | CallOnLogin => s
  | CameraOutcome cameraFails =>
      let s := setIsLoading false s in
      if cameraFails then
        setStep MANUAL_DNI
          (showNotification
             "❌ Error al acceder a la cámara. Cambiando a acceso manual..."
             (Some type_error) s)
      else
        setTimeout GoToSuccess 1500
          (showNotification "✅ Reconocimiento facial exitoso"
                            (Some type_success) s)
  | GoToSuccess => setStep SUCCESS s
  | CodeOutcome enteredCode =>
      let s := setIsLoading false s in
      if String.eqb enteredCode "123456" then
        setTimeout GoToSuccess 1000
          (showNotification "✅ Código correcto" (Some type_success) s)
      else
        focusCell 0
          (setCode emptyCode
             (showNotification "❌ Código incorrecto. Intente de nuevo"
                               (Some type_error) s))
  end.

(** ** Rendering *)

(** The [useEffect] hook (l.36-45), run after a render in which [step]
    changed.  Its other dependency, the [onLogin] prop, is taken to keep
    its identity across renders. *)
Definition stepEffect (s : state) : state :=
  if String.eqb (step s) MANUAL_CODE then setTimeout FocusFirstCell 100 s
  else if String.eqb (step s) SUCCESS then setTimeout CallOnLogin 2500 s
  else s.

(** Run a handler or a timer callback, then re-render: the effect runs when
    the dependency [step] differs from the previous render. *)
Definition update (h : state -> state) (s : state) : state :=
  let s' := h s in
  if String.eqb (step s) (step s') then s' else stepEffect s'.

Definition handler := state -> state.

(** What [renderStep] returns: the view and the props it receives. *)
Inductive view :=
| InitialView (onStartFacialRecognition : bool -> handler)
              (onNavigateToManualDNI : handler)
| FacialRecognitionView (isLoading : bool) (onGoBack : handler)
| ManualDniView (dni : string) (setDni : string -> handler)
                (onSubmit onGoBack : handler)
| ManualCodeView (code : list cell)
                 (handleCodeChange : string -> nat -> handler)
                 (validateCode : handler) (isLoading : bool)
                 (onGoBack : handler)
| SuccessView.

(** [renderStep] (l.127-168); [None] is [null]. *)
Definition renderStep (s : state) : option view :=
  if String.eqb (step s) INITIAL then
    Some (InitialView startFacialRecognition (setStep MANUAL_DNI))
  else if String.eqb (step s) FACIAL_RECOGNITION then
    Some (FacialRecognitionView (isLoading s) (setStep INITIAL))
  else if String.eqb (step s) MANUAL_DNI then
    Some (ManualDniView (dni s) setDni handleDniSubmit (setStep INITIAL))
  else if String.eqb (step s) MANUAL_CODE then
    Some (ManualCodeView (code s) handleCodeChange validateCode_default
                         (isLoading s) (setStep MANUAL_DNI))
  else if String.eqb (step s) SUCCESS then
    Some SuccessView
  else None.

(** The [onGoBack] prop of a view, when it has one. *)
Definition onGoBack_of (v : option view) : option handler :=
  match v with
  | Some (FacialRecognitionView _ h) => Some h
  | Some (ManualDniView _ _ _ h) => Some h
  | Some (ManualCodeView _ _ _ _ h) => Some h
  | _ => None
  end.

(** ** The event loop *)

Definition count_down (t : nat * callback) : nat * callback :=
  (pred (fst t), snd t).

Definition is_due (t : nat * callback) : bool := fst t =? 0.

(** Run one queued callback as its own task, followed by a render. *)
Definition fire (s : state) (cb : callback) : state :=
  update (run_callback cb) (recordFired cb s).

(** One millisecond passes: every pending timer counts down, and those that
    reach zero run in the order in which they were scheduled.  What they
    schedule in turn joins the end of the queue. *)
Definition tick (s : state) : state :=
  let ts := map count_down (timers s) in
  fold_left fire
            (map snd (List.filter is_due ts))
            (setTimers (List.filter (fun t => negb (is_due t)) ts) s).

Fixpoint wait (ms : nat) (s : state) : state :=
  match ms with
  | 0 => s
  | S ms' => wait ms' (tick s)
  end.

(** ** User events *)

Inductive event :=
| ClickStartFacialRecognition (cameraFails : bool)
| ClickManualDni
| ClickGoBack
| TypeDni (x : string)
| SubmitDni
| TypeCode (raw : string) (i : nat)
| ClickValidate
| Elapse (ms : nat).

(** Modelled from the spec: [ManualCodeView] is not among the sources; by the
    contract of the code input ([index] in [0,5]) it reports changes for the
    six cells only. *)
Definition cellIndex_ok (i : nat) : bool := i <? 6.

(** An event reaches the handler that [renderStep] gave to the view on
    screen; [None] when the view offers no such control.  The button of
    [FacialRecognitionView] carries [disabled={isLoading}].  The other views
    are not among the sources: each prop they receive is taken to be wired
    to a control that is always live. *)
Definition dispatch (e : event) (s : state) : option state :=
  match e, renderStep s with
  | Elapse ms, _ => Some (wait ms s)
  | ClickStartFacialRecognition b, Some (InitialView start _) =>
      Some (update (start b) s)
  | ClickManualDni, Some (InitialView _ nav) => Some (update nav s)
  | ClickGoBack, Some (FacialRecognitionView loading back) =>
      if loading then None else Some (update back s)
  | ClickGoBack, Some (ManualDniView _ _ _ back) => Some (update back s)
  | ClickGoBack, Some (ManualCodeView _ _ _ _ back) => Some (update back s)
  | TypeDni x, Some (ManualDniView _ set _ _) => Some (update (set x) s)
  | SubmitDni, Some (ManualDniView _ _ submit _) => Some (update submit s)
  | TypeCode raw i, Some (ManualCodeView _ change _ _ _) =>
      if cellIndex_ok i then Some (update (change raw i) s) else None
  | ClickValidate, Some (ManualCodeView _ _ validate _ _) =>
      Some (update validate s)
  | _, _ => None
  end.

Fixpoint run (es : list event) (s : state) : option state :=
  match es with
  | [] => Some s
  | e :: rest =>
      match dispatch e s with
      | Some s' => run rest s'
      | None => None
      end
  end.

(** ** Vocabulary of the statements *)

(** The kind of the notification on screen, if any. *)
Definition notified (s : state) : option NotificationType :=
  match notification s with
  | Some n => type n
  | None => None
  end.

(** The [go back] rows of the transition table, as the specification lists
    them: FacialRecognition and ManualDni lead to Initial, ManualCode leads
    to ManualDni, and no other step has the event. *)
Definition goBack_table (x : LoginStep) : option LoginStep :=
  if String.eqb x FACIAL_RECOGNITION then Some INITIAL
  else if String.eqb x MANUAL_DNI then Some INITIAL
  else if String.eqb x MANUAL_CODE then Some MANUAL_DNI
  else None.

(** [d] milliseconds less on a pending timer. *)
Definition advance (d : nat) (t : nat * callback) : nat * callback :=
  (fst t - d, snd t).

(** The callbacks that never touch [step]: all but the camera outcome, the
    delayed move to Success, and the outcome of a matching code. *)
Definition step_neutral (cb : callback) : bool :=
  match cb with
  | ClearNotification | FocusFirstCell | CallOnLogin => true
  | CodeOutcome e => negb (String.eqb e "123456")
  | CameraOutcome _ | GoToSuccess => false
  end.

Definition all_neutral (ts : list (nat * callback)) : Prop :=
  Forall (fun t => step_neutral (snd t) = true) ts.

(** A cell is well formed when it holds the empty string or one digit. *)
Definition cell_ok (c : cell) : bool :=
  match c with
  | Some EmptyString => true
  | Some (String d EmptyString) => is_digit d
  | _ => false
  end.

(** The array is well formed when it has six well-formed cells. *)
Definition code_ok (a : list cell) : bool :=
  (length a =? 6) && forallb cell_ok a.

(** Timers that are step-neutral and not due within the next [k] ms. *)
Definition behind (k : nat) (ts : list (nat * callback)) : Prop :=
  Forall (fun t => k < fst t /\ step_neutral (snd t) = true) ts.

(** [cb] runs in [k] ms; the timers queued before it are step-neutral, and
    so are those queued after it, which moreover run later. *)
Definition waiting (k : nat) (cb : callback) (s : state) : Prop :=
  exists l1 l2, timers s = (l1 ++ (k, cb) :: l2)%list /\
                all_neutral l1 /\ behind k l2.

(** Timers as a step-neutral callback schedules them. *)
Definition fresh (ts : list (nat * callback)) : Prop :=
  Forall (fun t => fst t = 2500 /\ step_neutral (snd t) = true) ts.

(** The boolean form of [all_neutral], for a given state. *)
Definition neutral_pending (s : state) : bool :=
  forallb (fun t => step_neutral (snd t)) (timers s).

(** ** Further vocabulary *)

(** The five values of [LoginStep]. *)
Definition known_step (x : LoginStep) : bool :=
  String.eqb x INITIAL || String.eqb x FACIAL_RECOGNITION ||
  String.eqb x MANUAL_DNI || String.eqb x MANUAL_CODE || String.eqb x SUCCESS.

(** The moves a control can make: from Initial to FacialRecognition or
    ManualDni, from FacialRecognition to Initial, from ManualDni to itself,
    ManualCode or Initial, from ManualCode to itself or ManualDni. *)
Definition user_edge (a b : LoginStep) : bool :=
  (String.eqb a INITIAL &&
     (String.eqb b FACIAL_RECOGNITION || String.eqb b MANUAL_DNI)) ||
  (String.eqb a FACIAL_RECOGNITION && String.eqb b INITIAL) ||
  (String.eqb a MANUAL_DNI &&
     (String.eqb b MANUAL_DNI || String.eqb b MANUAL_CODE ||
      String.eqb b INITIAL)) ||
  (String.eqb a MANUAL_CODE &&
     (String.eqb b MANUAL_CODE || String.eqb b MANUAL_DNI)).

(** Everything but the passing of time. *)
Definition is_user_event (e : event) : bool :=
  match e with
  | Elapse _ => false
  | _ => true
  end.

(** The callbacks that deliver the outcome of a probe. *)
Definition is_outcome (cb : callback) : bool :=
  match cb with
  | CameraOutcome _ | CodeOutcome _ => true
  | _ => false
  end.

Definition is_expiry (cb : callback) : bool :=
  match cb with
  | ClearNotification => true
  | _ => false
  end.

(** Some pending callback satisfies [p]. *)
Definition pending (p : callback -> bool) (s : state) : bool :=
  existsb (fun t => p (snd t)) (timers s).

Definition shown (s : state) : bool :=
  match notification s with
  | Some _ => true
  | None => false
  end.

(** The focus, when requested, is on one of the six cells. *)
Definition focus_ok (s : state) : bool :=
  match focused s with
  | Some j => j <? 6
  | None => true
  end.

(** The longest chain of delays that a callback can start: the camera
    outcome schedules the move to Success (1500 ms), which schedules the
    call to [onLogin] (2500 ms); a code outcome schedules the move to
    Success after 1000 ms; every notification expires after 2500 ms. *)
Definition tail (cb : callback) : nat :=
  match cb with
  | ClearNotification | FocusFirstCell | CallOnLogin => 0
  | GoToSuccess => 2500
  | CodeOutcome _ => 3500
  | CameraOutcome _ => 4000
  end.

(** Every pending timer has at least 1 ms to go, and it and all it can
    start are over within [n] ms. *)
Definition settles_within (n : nat) (ts : list (nat * callback)) : Prop :=
  Forall (fun t => 1 <= fst t /\ fst t + tail (snd t) <= n) ts.

(** A flag that is up only while a callback satisfying [p] is pending. *)
Definition guarded (flag : state -> bool) (p : callback -> bool)
    (s : state) : Prop :=
  flag s = true -> pending p s = true.

(** The same in the middle of a tick, when the callbacks [cbs] have left
    the queue and are about to run. *)
Definition guarded_with (flag : state -> bool) (p : callback -> bool)
    (cbs : list callback) (s : state) : Prop :=
  flag s = true -> pending p s = true \/ existsb p cbs = true.

(** The one event that edits the DNI field. *)
Definition types_dni (e : event) : bool :=
  match e with
  | TypeDni _ => true
  | _ => false
  end.

(** A probe is running with more than [k] ms to go: the loading flag is
    up, the step is FacialRecognition (or already Success, by a delayed
    move scheduled earlier), and no outcome is due within [k] ms. *)
Definition probing (k : nat) (s : state) : Prop :=
  isLoading s = true /\
  (step s = FACIAL_RECOGNITION \/ step s = SUCCESS) /\
  Forall (fun t => is_outcome (snd t) = true -> k < fst t) (timers s).


(** * Properties *)

(** ** Basic facts about strings and states *)

Lemma slice_last_single (c : ascii) : slice_last (String c "") = String c "".
Proof. reflexivity. Qed.

Lemma test_nondigit_single (c : ascii) :
  test_nondigit (String c "") = negb (is_digit c).
Proof. simpl. apply orb_false_r. Qed.

Lemma setTimers_id (s : state) : setTimers (timers s) s = s.
Proof. now destruct s. Qed.

(** A handler that leaves [step] alone triggers no effect. *)
Lemma update_same_step (h : handler) (s : state) :
  step (h s) = step s -> update h s = h s.
Proof. intros E. unfold update. now rewrite E, String.eqb_refl. Qed.

(** ** Input rejection *)

(** Whatever the field held before, only its last code unit counts; when
    that is not a digit the handler returns before any setter is called. *)
Lemma handleCodeChange_rejects (raw : string) (c : ascii) (i : nat) (s : state) :
  slice_last raw = String c "" -> is_digit c = false ->
  handleCodeChange raw i s = s.
Proof.
  intros L D. unfold handleCodeChange. rewrite L.
  rewrite test_nondigit_single, D. reflexivity.
Qed.

(** C5: for every cell index (in [0,5] or not), every state and every input
    character that is not a digit, [handleCodeChange] returns the state it
    was given: the six cells, and everything else, are unchanged. *)
Theorem handleCodeChange_nondigit_unchanged (c : ascii) (i : nat) (s : state) :
  is_digit c = false ->
  handleCodeChange (String c "") i s = s.
Proof. intros D. now apply handleCodeChange_rejects with c. Qed.

Lemma handleCodeChange_nondigit_unchanged_witness :
  is_digit "a"%char = false /\
  handleCodeChange "a" 3 initialState = initialState.
Proof.
  split; [reflexivity|].
  apply (handleCodeChange_nondigit_unchanged "a"%char 3 initialState).
  reflexivity.
Defined.

(** ** DNI submission *)

(** C6: from ManualDni, submitting a DNI whose length is not 8 shows an
    error notification and changes nothing else (no transition; the only
    other trace is the notification's own expiry timer); a DNI of length
    exactly 8 shows an info notification and moves to ManualCode.  The
    length is the only test: the content of the string is never looked at. *)
Theorem handleDniSubmit_length_only (s : state) :
  step s = MANUAL_DNI ->
  let s' := update handleDniSubmit s in
  if String.length (dni s) =? 8 then
    step s' = MANUAL_CODE /\ notified s' = Some type_info /\
    dni s' = dni s /\ code s' = code s /\ isLoading s' = isLoading s
  else
    step s' = MANUAL_DNI /\ notified s' = Some type_error /\
    dni s' = dni s /\ code s' = code s /\ isLoading s' = isLoading s /\
    focused s' = focused s /\ validateCalls s' = validateCalls s /\
    timers s' = (timers s ++ [(2500, ClearNotification)])%list.
Proof.
  intros St. destruct s as [st d c l n f t v fi]. simpl in St. subst st.
  unfold update, handleDniSubmit. simpl.
  destruct (String.length d =? 8); simpl; repeat split; reflexivity.
Qed.

Lemma handleDniSubmit_length_only_witness :
  (let s := setDni "1234567" (setStep MANUAL_DNI initialState) in
   let s' := update handleDniSubmit s in
   step s' = MANUAL_DNI /\ notified s' = Some type_error /\ code s' = code s) /\
  (let s := setDni "12345678" (setStep MANUAL_DNI initialState) in
   let s' := update handleDniSubmit s in
   step s' = MANUAL_CODE /\ notified s' = Some type_info) /\
  (let s := setDni "abcdefgh" (setStep MANUAL_DNI initialState) in
   step (update handleDniSubmit s) = MANUAL_CODE).
Proof.
  split; [|split].
  - pose proof (handleDniSubmit_length_only
                  (setDni "1234567" (setStep MANUAL_DNI initialState))
                  eq_refl) as H.
    simpl in H. simpl. tauto.
  - pose proof (handleDniSubmit_length_only
                  (setDni "12345678" (setStep MANUAL_DNI initialState))
                  eq_refl) as H.
    simpl in H. simpl. tauto.
  - pose proof (handleDniSubmit_length_only
                  (setDni "abcdefgh" (setStep MANUAL_DNI initialState))
                  eq_refl) as H.
    simpl in H. simpl. tauto.
Defined.

(** ** Going back *)

Lemma update_setStep_INITIAL (s : state) :
  update (setStep INITIAL) s = setStep INITIAL s.
Proof. unfold update. simpl. now destruct (String.eqb (step s) INITIAL). Qed.

Lemma update_setStep_MANUAL_DNI (s : state) :
  update (setStep MANUAL_DNI) s = setStep MANUAL_DNI s.
Proof. unfold update. simpl. now destruct (String.eqb (step s) MANUAL_DNI). Qed.

Lemma onGoBack_of_renderStep (s : state) :
  onGoBack_of (renderStep s) =
  match goBack_table (step s) with
  | Some x => Some (setStep x)
  | None => None
  end.
Proof.
  unfold renderStep, goBack_table.
  destruct (String.eqb_spec (step s) INITIAL) as [E|_].
  { rewrite E. reflexivity. }
  destruct (String.eqb (step s) FACIAL_RECOGNITION); [reflexivity|].
  destruct (String.eqb (step s) MANUAL_DNI); [reflexivity|].
  destruct (String.eqb (step s) MANUAL_CODE); [reflexivity|].
  destruct (String.eqb (step s) SUCCESS); reflexivity.
Qed.

(** C7: the step reached through the [onGoBack] prop that [renderStep] hands
    to the view is the predecessor of the table, and the steps without a
    predecessor receive no [onGoBack] at all. *)
Theorem goBack_follows_table (s : state) :
  option_map (fun h : handler => step (update h s))
             (onGoBack_of (renderStep s))
  = goBack_table (step s).
Proof.
  rewrite onGoBack_of_renderStep. unfold goBack_table.
  destruct (String.eqb (step s) FACIAL_RECOGNITION);
    [simpl; now rewrite update_setStep_INITIAL|].
  destruct (String.eqb (step s) MANUAL_DNI);
    [simpl; now rewrite update_setStep_INITIAL|].
  destruct (String.eqb (step s) MANUAL_CODE);
    [simpl; now rewrite update_setStep_MANUAL_DNI|].
  reflexivity.
Qed.

(** C10: going back only moves [step].  Whatever view is on screen, the
    [onGoBack] it was given keeps the [dni] string and every code cell (and
    the loading flag, the notification, the focus and the pending timers). *)
Theorem goBack_preserves_context (s : state) (h : handler) :
  onGoBack_of (renderStep s) = Some h ->
  let s' := update h s in
  dni s' = dni s /\ code s' = code s /\ isLoading s' = isLoading s /\
  notification s' = notification s /\ focused s' = focused s /\
  timers s' = timers s.
Proof.
  rewrite onGoBack_of_renderStep. unfold goBack_table.
  destruct (String.eqb (step s) FACIAL_RECOGNITION);
    [intros [= <-]; simpl; rewrite update_setStep_INITIAL; now simpl|].
  destruct (String.eqb (step s) MANUAL_DNI);
    [intros [= <-]; simpl; rewrite update_setStep_INITIAL; now simpl|].
  destruct (String.eqb (step s) MANUAL_CODE);
    [intros [= <-]; simpl; rewrite update_setStep_MANUAL_DNI; now simpl|].
  discriminate.
Qed.

Lemma goBack_preserves_context_witness :
  let s := setCode [Some "4"; Some "2"; Some ""; Some ""; Some ""; Some ""]
             (setDni "12345678" (setStep MANUAL_CODE initialState)) in
  let s' := update (setStep MANUAL_DNI) s in
  dni s' = "12345678" /\
  code s' = [Some "4"; Some "2"; Some ""; Some ""; Some ""; Some ""].
Proof.
  pose proof (goBack_preserves_context
    (setCode [Some "4"; Some "2"; Some ""; Some ""; Some ""; Some ""]
       (setDni "12345678" (setStep MANUAL_CODE initialState)))
    (setStep MANUAL_DNI) eq_refl) as H.
  simpl in H. simpl. tauto.
Defined.

(** ** The renderer *)

(** C9: for a step value outside the five of [LoginStep], [renderStep]
    takes its [default] branch and returns [null]; being a total function
    it cannot raise. *)
Theorem renderStep_unknown_is_null (s : state) :
  step s <> INITIAL -> step s <> FACIAL_RECOGNITION ->
  step s <> MANUAL_DNI -> step s <> MANUAL_CODE -> step s <> SUCCESS ->
  renderStep s = None.
Proof.
  intros H1 H2 H3 H4 H5. unfold renderStep.
  apply String.eqb_neq in H1, H2, H3, H4, H5.
  now rewrite H1, H2, H3, H4, H5.
Qed.

Lemma renderStep_unknown_is_null_witness :
  renderStep (setStep "LOCKED" initialState) = None.
Proof.
  apply (renderStep_unknown_is_null (setStep "LOCKED" initialState));
    simpl; discriminate.
Defined.

(** ** Code entry *)

Lemma validateCode_code (e : string) (s : state) :
  code (validateCode e s) = code s.
Proof. unfold validateCode. now destruct (String.length e <? 6). Qed.

Lemma validateCode_validateCalls (e : string) (s : state) :
  validateCalls (validateCode e s) = (validateCalls s ++ [e])%list.
Proof. unfold validateCode. now destruct (String.length e <? 6). Qed.

(** One change of one cell calls [validateCode] at most once, and only from
    the last cell when the updated array has no empty cell; the argument is
    then the concatenation of the updated cells. *)
Lemma handleCodeChange_validateCalls (raw : string) (i : nat) (s : state) :
  let s' := handleCodeChange raw i s in
  validateCalls s' = validateCalls s \/
  (i = 5 /\ every_nonempty (code s') = true /\
   validateCalls s' = (validateCalls s ++ [join (code s')])%list).
Proof.
  unfold handleCodeChange.
  destruct (String.eqb (slice_last raw) "").
  { left. now destruct (0 <? i). }
  destruct (test_nondigit (slice_last raw)); [now left|].
  destruct ((i =? 5) && every_nonempty (array_set i (slice_last raw) (code s)))
    eqn:E.
  - right. apply andb_true_iff in E as [Ei Ee].
    apply Nat.eqb_eq in Ei.
    cbv zeta. rewrite validateCode_code, validateCode_validateCalls.
    destruct (i <? 5); (split; [exact Ei|split; [exact Ee|reflexivity]]).
  - left. cbv zeta.
    now destruct (i <? 5).
Qed.

(** ** Time *)

Section Timers.

Lemma filter_due_none (ts : list (nat * callback)) :
  Forall (fun t => 1 < fst t) ts ->
  List.filter is_due (map count_down ts) = [] /\
  List.filter (fun t => negb (is_due t)) (map count_down ts)
  = map count_down ts.
Proof.
  induction 1 as [|[k cb] ts Hk _ [IH1 IH2]]; [now split|].
  simpl in Hk. cbn [map List.filter].
  assert (is_due (count_down (k, cb)) = false) as ->.
  { unfold is_due, count_down. simpl. apply Nat.eqb_neq. lia. }
  simpl. now rewrite IH1, IH2.
Qed.

(** Nothing runs during a millisecond in which no timer is due. *)
Lemma tick_idle (s : state) :
  Forall (fun t => 1 < fst t) (timers s) ->
  tick s = setTimers (map count_down (timers s)) s.
Proof.
  intros H. unfold tick. destruct (filter_due_none _ H) as [E1 E2].
  now rewrite E1, E2.
Qed.

Lemma wait_idle (d : nat) : forall s : state,
  Forall (fun t => d < fst t) (timers s) ->
  wait d s = setTimers (map (advance d) (timers s)) s.
Proof.
  induction d as [|d IH]; intros s H.
  - simpl. rewrite <- (setTimers_id s) at 1. f_equal.
    rewrite <- (map_id (timers s)) at 1. apply map_ext.
    intros [k cb]. unfold advance. simpl. f_equal. lia.
  - simpl. rewrite tick_idle.
    2:{ eapply Forall_impl; [exact H|]. simpl. intros; lia. }
    rewrite IH.
    2:{ simpl. apply List.Forall_map. eapply Forall_impl; [exact H|].
        intros [k cb]. simpl. lia. }
    simpl. unfold setTimers. simpl. f_equal.
    rewrite map_map. apply map_ext. intros [k cb]. unfold advance. simpl.
    f_equal. lia.
Qed.

Lemma wait_add (a : nat) : forall (b : nat) (s : state),
  wait (a + b) s = wait b (wait a s).
Proof.
  induction a as [|a IH]; intros b s; simpl; [reflexivity|apply IH].
Qed.

Lemma wait_S_r (n : nat) (s : state) : wait (S n) s = tick (wait n s).
Proof. replace (S n) with (n + 1) by lia. now rewrite wait_add. Qed.

Lemma fire_ClearNotification (s : state) :
  fire s ClearNotification
  = setNotification None (recordFired ClearNotification s).
Proof. unfold fire. now rewrite update_same_step. Qed.


(** A single pending timer runs when its delay has elapsed, not before. *)
Lemma wait_single (k : nat) (cb : callback) (s : state) :
  timers s = [(S k, cb)] ->
  wait (S k) s = fire (setTimers [] s) cb.
Proof.
  intros T. rewrite wait_S_r, wait_idle.
  2:{ rewrite T. constructor; [simpl; lia|constructor]. }
  rewrite T. unfold advance. cbn [map fst snd].
  replace (S k - k) with 1 by lia. reflexivity.
Qed.

(** Two pending expiries, the second [d] ms behind the first: both run. *)
Lemma wait_two_expiries (k d : nat) (s : state) :
  timers s = [(S k, ClearNotification); (S k + d, ClearNotification)] ->
  notification (wait (S k) s) = None /\
  fired (wait (S k + d) s)
  = (fired s ++ [ClearNotification; ClearNotification])%list.
Proof.
  intros T.
  assert (W : wait k s
              = setTimers [(1, ClearNotification); (S d, ClearNotification)]
                          s).
  { rewrite wait_idle; rewrite T.
    2:{ constructor; [simpl; lia|constructor; [simpl; lia|constructor]]. }
    unfold advance. cbn [map fst snd].
    replace (S k - k) with 1 by lia.
    replace (S k + d - k) with (S d) by lia. reflexivity. }
  rewrite wait_add, wait_S_r, W.
  destruct d as [|d].
  - unfold tick. simpl. rewrite !fire_ClearNotification. simpl.
    split; [reflexivity|]. now rewrite <- app_assoc.
  - assert (E : tick (setTimers [(1, ClearNotification);
                                 (S (S d), ClearNotification)] s)
                = setTimers [(S d, ClearNotification)]
                    (setNotification None
                       (recordFired ClearNotification s))).
    { unfold tick. simpl. now rewrite fire_ClearNotification. }
    rewrite E. split; [reflexivity|].
    rewrite (wait_single d ClearNotification) by reflexivity.
    rewrite fire_ClearNotification. simpl. now rewrite <- app_assoc.
Qed.

End Timers.

(** ** Callbacks that cannot move the step *)

Section Neutral.

Lemma fire_neutral (s : state) (cb : callback) :
  step_neutral cb = true -> all_neutral (timers s) ->
  step (fire s cb) = step s /\ all_neutral (timers (fire s cb)).
Proof.
  intros N A. unfold fire.
  destruct cb as [| | |b| |e]; simpl in N; try discriminate;
    try (rewrite update_same_step by reflexivity; now split).
  apply negb_true_iff in N.
  rewrite update_same_step; unfold run_callback; rewrite N; [|reflexivity].
  split; [reflexivity|]. simpl.
  apply Forall_app. split; [exact A|]. now repeat constructor.
Qed.

Lemma fold_fire_neutral (cbs : list callback) : forall s : state,
  Forall (fun cb => step_neutral cb = true) cbs -> all_neutral (timers s) ->
  step (fold_left fire cbs s) = step s /\
  all_neutral (timers (fold_left fire cbs s)).
Proof.
  induction cbs as [|cb cbs IH]; intros s N A; [now split|].
  inversion N as [|? ? Ncb Ncbs]; subst.
  destruct (fire_neutral s cb Ncb A) as [St A'].
  destruct (IH (fire s cb) Ncbs A') as [St' A''].
  simpl. split; [congruence|exact A''].
Qed.

Lemma count_down_neutral (ts : list (nat * callback)) :
  all_neutral ts ->
  Forall (fun cb => step_neutral cb = true)
         (map snd (List.filter is_due (map count_down ts))) /\
  all_neutral (List.filter (fun t => negb (is_due t)) (map count_down ts)).
Proof.
  induction 1 as [|[k cb] ts N _ [IH1 IH2]]; [split; constructor|].
  cbn [map List.filter].
  destruct (is_due (count_down (k, cb))); simpl; split;
    try assumption; now constructor.
Qed.

Lemma tick_neutral (s : state) :
  all_neutral (timers s) ->
  step (tick s) = step s /\ all_neutral (timers (tick s)).
Proof.
  intros A. destruct (count_down_neutral _ A) as [D R].
  unfold tick.
  now destruct (fold_fire_neutral _ (setTimers _ s) D R) as [St A'].
Qed.

(** While only such callbacks are pending, time alone never changes the
    step. *)
Lemma wait_neutral (d : nat) : forall s : state,
  all_neutral (timers s) -> step (wait d s) = step s.
Proof.
  induction d as [|d IH]; intros s A; [reflexivity|].
  destruct (tick_neutral s A) as [St A']. simpl.
  now rewrite IH.
Qed.

End Neutral.

(** ** Notifications *)

(** C2, as the component behaves: [showNotification] never cancels a
    timer.  After show(a, info) and, [d] < 2500 ms later, show(b, error),
    only [b] is on screen, but both expiries are pending.  The first one
    runs 2500 - [d] ms after the second call and removes [b]; the second one
    runs at 2500 ms and clears the empty slot again: two expiry events. *)
Theorem showNotification_twice_two_expiries
    (s : state) (a b : string) (d : nat) :
  timers s = [] -> d < 2500 ->
  let s1 := showNotification a (Some type_info) s in
  let s2 := showNotification b (Some type_error) (wait d s1) in
  notification s2 = Some (mkNotification b (Some type_error)) /\
  timers s2 = [(2500 - d, ClearNotification); (2500, ClearNotification)] /\
  notification (wait (2500 - d) s2) = None /\
  fired (wait 2500 s2)
  = (fired s ++ [ClearNotification; ClearNotification])%list.
Proof.
  intros T D s1 s2.
  assert (T1 : timers s1 = [(2500, ClearNotification)]).
  { unfold s1, showNotification, setTimeout.
    cbn [timers setTimers setNotification]. now rewrite T. }
  assert (W : wait d s1 = setTimers [(2500 - d, ClearNotification)] s1).
  { rewrite wait_idle; rewrite T1; [reflexivity|].
    constructor; [simpl; lia|constructor]. }
  assert (T2 : timers s2
               = [(2500 - d, ClearNotification); (2500, ClearNotification)]).
  { unfold s2. now rewrite W. }
  split; [reflexivity|]. split; [exact T2|].
  assert (F : fired s2 = fired s).
  { unfold s2. now rewrite W. }
  destruct (wait_two_expiries (2499 - d) d s2) as [N Fi].
  { rewrite T2. repeat f_equal; lia. }
  replace (S (2499 - d)) with (2500 - d) in N by lia.
  replace (S (2499 - d) + d) with 2500 in Fi by lia.
  rewrite <- F. now split.
Qed.

Lemma showNotification_twice_two_expiries_witness :
  let s2 := showNotification "B" (Some type_error)
              (wait 1000
                 (showNotification "A" (Some type_info) initialState)) in
  notification s2 = Some (mkNotification "B" (Some type_error)) /\
  timers s2 = [(1500, ClearNotification); (2500, ClearNotification)] /\
  notification (wait 1500 s2) = None.
Proof.
  pose proof (showNotification_twice_two_expiries initialState "A" "B" 1000
                eq_refl ltac:(lia)) as H.
  cbv zeta in H. destruct H as [H1 [H2 [H3 _]]].
  split; [exact H1|split; [exact H2|exact H3]].
Defined.

(** No cancellation on show("A", info), one second, show("B", error): the
    first expiry is still delivered, 1500 ms after "B" appeared, and takes
    "B" off the screen; a second expiry follows at 2500 ms. *)
Lemma showNotification_twice_counterexample :
  let s2 := showNotification "B" (Some type_error)
              (wait 1000
                 (showNotification "A" (Some type_info) initialState)) in
  notification s2 = Some (mkNotification "B" (Some type_error)) /\
  notification (wait 1500 s2) = None /\
  fired (wait 1500 s2) = [ClearNotification] /\
  fired (wait 2500 s2) = [ClearNotification; ClearNotification] /\
  fired (wait 2500 s2) <> [ClearNotification].
Proof. vm_compute. repeat split. discriminate. Qed.

(** ** The timer queue *)

Lemma neutral_pending_spec (s : state) :
  neutral_pending s = true <-> all_neutral (timers s).
Proof.
  unfold neutral_pending, all_neutral.
  now rewrite forallb_forall, List.Forall_forall.
Qed.

Lemma fire_neutral_timers (s : state) (cb : callback) :
  step_neutral cb = true ->
  step (fire s cb) = step s /\
  exists new, timers (fire s cb) = (timers s ++ new)%list /\ fresh new.
Proof.
  intros N. unfold fire.
  destruct cb as [| | |b| |e]; simpl in N; try discriminate;
    try (rewrite update_same_step by reflexivity;
         split; [reflexivity|exists []; split;
                             [simpl; now rewrite app_nil_r|constructor]]).
  apply negb_true_iff in N.
  rewrite update_same_step; unfold run_callback; rewrite N; [|reflexivity].
  split; [reflexivity|]. exists [(2500, ClearNotification)].
  split; [reflexivity|]. now repeat constructor.
Qed.

Lemma fold_fire_neutral_timers (cbs : list callback) : forall s : state,
  Forall (fun cb => step_neutral cb = true) cbs ->
  step (fold_left fire cbs s) = step s /\
  exists new, timers (fold_left fire cbs s) = (timers s ++ new)%list /\
              fresh new.
Proof.
  induction cbs as [|cb cbs IH]; intros s N.
  { split; [reflexivity|]. exists []. split; [simpl; now rewrite app_nil_r|constructor]. }
  inversion N as [|? ? Ncb Ncbs]; subst.
  destruct (fire_neutral_timers s cb Ncb) as [St [n1 [T1 F1]]].
  destruct (IH (fire s cb) Ncbs) as [St' [n2 [T2 F2]]].
  simpl. split; [congruence|]. exists (n1 ++ n2)%list.
  split; [now rewrite T2, T1, <- app_assoc|now apply Forall_app].
Qed.

Lemma fresh_neutral (ts : list (nat * callback)) : fresh ts -> all_neutral ts.
Proof. intros F. eapply Forall_impl; [exact F|]. now intros t [_ N]. Qed.

Lemma behind_neutral (k : nat) (ts : list (nat * callback)) :
  behind k ts -> all_neutral ts.
Proof. intros F. eapply Forall_impl; [exact F|]. now intros t [_ N]. Qed.

Lemma behind_count_down (k : nat) (ts : list (nat * callback)) :
  behind (S k) ts ->
  List.filter is_due (map count_down ts) = [] /\
  List.filter (fun t => negb (is_due t)) (map count_down ts)
  = map count_down ts /\
  behind k (map count_down ts).
Proof.
  induction 1 as [|[n cb] ts [Hn N] _ (IH1 & IH2 & IH3)];
    [repeat split; constructor|].
  simpl in Hn, N. cbn [map List.filter].
  assert (is_due (count_down (n, cb)) = false) as ->.
  { unfold is_due, count_down. simpl. apply Nat.eqb_neq. lia. }
  simpl. rewrite IH1, IH2. repeat split.
  constructor; [|exact IH3]. simpl. split; [lia|exact N].
Qed.

Lemma tick_split (s : state) (l1 l2 : list (nat * callback))
    (k : nat) (cb : callback) :
  timers s = (l1 ++ (k, cb) :: l2)%list -> behind 1 l2 ->
  tick s
  = fold_left fire
      (map snd (List.filter is_due (map count_down l1))
       ++ (if k <=? 1 then [cb] else []))%list
      (setTimers
         (List.filter (fun t => negb (is_due t)) (map count_down l1)
          ++ (if k <=? 1 then [] else [(pred k, cb)])
          ++ map count_down l2)%list s).
Proof.
  intros T B. destruct (behind_count_down 0 l2 B) as (D & R & _).
  unfold tick. rewrite T, List.map_app, !List.filter_app. cbn [map List.filter].
  rewrite D, R, List.map_app.
  destruct k as [|[|k]]; reflexivity.
Qed.

Lemma tick_waiting (k : nat) (cb : callback) (s : state) :
  S k < 2500 -> waiting (S (S k)) cb s ->
  waiting (S k) cb (tick s) /\ step (tick s) = step s.
Proof.
  intros K (l1 & l2 & T & N1 & B2).
  destruct (count_down_neutral l1 N1) as [D1 R1].
  destruct (behind_count_down (S k) l2 B2) as (_ & _ & B2').
  rewrite (tick_split s l1 l2 (S (S k)) cb T).
  2:{ eapply Forall_impl; [exact B2|]. intros t [? ?]. split; [lia|done]. }
  cbn [Nat.leb pred]. rewrite app_nil_r.
  destruct (fold_fire_neutral_timers _
              (setTimers
                 (List.filter (fun t => negb (is_due t)) (map count_down l1)
                  ++ [(S k, cb)] ++ map count_down l2)%list s) D1)
    as [St [new [Tn Fn]]].
  split; [|exact St].
  exists (List.filter (fun t => negb (is_due t)) (map count_down l1)),
         (map count_down l2 ++ new)%list.
  split; [|split; [exact R1|]].
  - rewrite Tn. cbn [timers setTimers]. now rewrite <- !app_assoc.
  - apply Forall_app. split; [exact B2'|].
    eapply Forall_impl; [exact Fn|]. intros t [E ?]. split; [lia|done].
Qed.

Lemma tick_fires (cb : callback) (s : state) :
  waiting 1 cb s ->
  exists s0, tick s = fire s0 cb /\ step s0 = step s /\
             all_neutral (timers s0).
Proof.
  intros (l1 & l2 & T & N1 & B2).
  destruct (count_down_neutral l1 N1) as [D1 R1].
  destruct (behind_count_down 0 l2 B2) as (_ & _ & B2').
  rewrite (tick_split s l1 l2 1 cb T B2).
  cbn [Nat.leb]. rewrite fold_left_app. cbn [fold_left].
  destruct (fold_fire_neutral_timers _
              (setTimers
                 (List.filter (fun t => negb (is_due t)) (map count_down l1)
                  ++ [] ++ map count_down l2)%list s) D1)
    as [St [new [Tn Fn]]].
  eexists. split; [reflexivity|]. split; [exact St|].
  rewrite Tn. cbn [timers setTimers].
  apply Forall_app. split; [apply Forall_app; split|].
  - exact R1.
  - simpl. now apply behind_neutral with 0.
  - now apply fresh_neutral.
Qed.

(** The queue discipline: a callback with at most 2500 ms to go, behind
    step-neutral timers only, runs when its time has come, in a state whose
    step is the one it was scheduled in, and it runs last in its tick. *)
Lemma wait_fires (cb : callback) (k : nat) : forall s : state,
  S k <= 2500 -> waiting (S k) cb s ->
  exists s0, wait (S k) s = fire s0 cb /\ step s0 = step s /\
             all_neutral (timers s0).
Proof.
  induction k as [|k IH]; intros s K W.
  - now apply tick_fires.
  - destruct (tick_waiting k cb s ltac:(lia) W) as [W' St].
    destruct (IH (tick s) ltac:(lia) W') as (s0 & E & St0 & N0).
    exists s0. split; [exact E|]. split; [congruence|exact N0].
Qed.



(** ** Code verification *)





(** ** The shape of the code array *)

Lemma code_ok_spec (a : list cell) :
  code_ok a = true <-> length a = 6 /\ Forall (fun c => cell_ok c = true) a.
Proof.
  unfold code_ok. rewrite andb_true_iff, Nat.eqb_eq, forallb_forall.
  now rewrite List.Forall_forall.
Qed.

Lemma slice_last_cases (raw : string) :
  slice_last raw = "" \/ exists c, slice_last raw = String c "".
Proof.
  induction raw as [|a [|b r] IH]; [now left|right; now exists a|exact IH].
Qed.

(** Writing a well-formed cell inside the array keeps it well formed. *)
Lemma array_set_ok (i : nat) (v : string) (a : list cell) :
  i < 6 -> cell_ok (Some v) = true -> code_ok a = true ->
  code_ok (array_set i v a) = true.
Proof.
  rewrite !code_ok_spec. intros I V [L F]. unfold array_set.
  replace (i <? length a) with true by (symmetry; apply Nat.ltb_lt; lia).
  split; [now rewrite length_insert|now apply Forall_insert].
Qed.

(** Past the end the array grows: the bound on the index is needed. *)
Example handleCodeChange_out_of_range :
  code (handleCodeChange "7" 7 initialState)
  = [Some ""; Some ""; Some ""; Some ""; Some ""; Some ""; None; Some "7"].
Proof. reflexivity. Qed.

Lemma handleCodeChange_code_ok (raw : string) (i : nat) (s : state) :
  i < 6 -> code_ok (code s) = true ->
  code_ok (code (handleCodeChange raw i s)) = true.
Proof.
  intros I C. unfold handleCodeChange.
  destruct (slice_last_cases raw) as [E|[c E]]; rewrite E.
  - simpl. destruct (0 <? i); now apply array_set_ok.
  - simpl String.eqb. rewrite test_nondigit_single. cbv iota.
    destruct (is_digit c) eqn:D; [|exact C]. cbv zeta iota. simpl negb.
    assert (A : code_ok (array_set i (String c "") (code s)) = true)
      by now apply array_set_ok.
    destruct ((i =? 5) && _); [rewrite validateCode_code|];
      now destruct (i <? 5).
Qed.

Lemma stepEffect_code (s : state) : code (stepEffect s) = code s.
Proof.
  unfold stepEffect.
  destruct (String.eqb (step s) MANUAL_CODE); [reflexivity|].
  now destruct (String.eqb (step s) SUCCESS).
Qed.

Lemma update_code (h : handler) (s : state) :
  code (update h s) = code (h s).
Proof.
  unfold update.
  destruct (String.eqb (step s) (step (h s))); [reflexivity|].
  apply stepEffect_code.
Qed.

Lemma run_callback_code_ok (cb : callback) (s : state) :
  code_ok (code s) = true -> code_ok (code (run_callback cb s)) = true.
Proof.
  intros C. destruct cb as [| | |b| |e]; simpl; try exact C.
  - now destruct b.
  - now destruct (String.eqb e "123456").
Qed.

Lemma fire_code_ok (s : state) (cb : callback) :
  code_ok (code s) = true -> code_ok (code (fire s cb)) = true.
Proof.
  intros C. unfold fire. rewrite update_code.
  now apply run_callback_code_ok.
Qed.

Lemma fold_fire_code_ok (cbs : list callback) : forall s : state,
  code_ok (code s) = true -> code_ok (code (fold_left fire cbs s)) = true.
Proof.
  induction cbs as [|cb cbs IH]; intros s C; [exact C|].
  simpl. apply IH. now apply fire_code_ok.
Qed.

Lemma tick_code_ok (s : state) :
  code_ok (code s) = true -> code_ok (code (tick s)) = true.
Proof. intros C. unfold tick. now apply fold_fire_code_ok. Qed.

Lemma wait_code_ok (ms : nat) : forall s : state,
  code_ok (code s) = true -> code_ok (code (wait ms s)) = true.
Proof.
  induction ms as [|ms IH]; intros s C; [exact C|].
  simpl. apply IH. now apply tick_code_ok.
Qed.

Lemma dispatch_code_ok (e : event) (s s' : state) :
  code_ok (code s) = true -> dispatch e s = Some s' ->
  code_ok (code s') = true.
Proof.
  intros C. unfold dispatch, renderStep.
  destruct (String.eqb (step s) INITIAL);
    [|destruct (String.eqb (step s) FACIAL_RECOGNITION);
      [|destruct (String.eqb (step s) MANUAL_DNI);
        [|destruct (String.eqb (step s) MANUAL_CODE);
          [|destruct (String.eqb (step s) SUCCESS)]]]];
    destruct e as [b| | |x| |raw i| |ms];
    try discriminate;
    try (intros [= <-]; first [now apply wait_code_ok
                              |rewrite update_code; exact C]).
  - destruct (isLoading s); [discriminate|].
    intros [= <-]. rewrite update_code. exact C.
  - intros [= <-]. rewrite update_code. unfold handleDniSubmit.
    now destruct (negb (String.length (dni s) =? 8)).
  - unfold cellIndex_ok. destruct (Nat.ltb_spec i 6); [|discriminate].
    intros [= <-]. rewrite update_code. now apply handleCodeChange_code_ok.
  - intros [= <-]. rewrite update_code. unfold validateCode_default.
    now rewrite validateCode_code.
Qed.

Lemma run_code_ok (es : list event) : forall s0 s : state,
  code_ok (code s0) = true -> run es s0 = Some s -> code_ok (code s) = true.
Proof.
  induction es as [|e es IH]; intros s0 s C R; simpl in R.
  - now injection R as <-.
  - destruct (dispatch e s0) as [s1|] eqn:D; [|discriminate].
    eapply IH; [|exact R]. eapply dispatch_code_ok; eassumption.
Qed.

(** C8: in every state reached from the first render by user events and
    the passing of time, [code] has exactly six cells and each cell holds
    the empty string or one digit 0-9. *)
Theorem code_always_six_cells (es : list event) (s : state) :
  run es initialState = Some s -> code_ok (code s) = true.
Proof. now apply run_code_ok. Qed.

Lemma code_always_six_cells_witness :
  exists s,
    run [ClickManualDni; TypeDni "12345678"; SubmitDni;
         TypeCode "1" 0; TypeCode "x" 1; TypeCode "29" 1; TypeCode "" 1;
         TypeCode "3" 5; Elapse 3000; ClickValidate] initialState = Some s /\
    code s = [Some "1"; Some ""; Some ""; Some ""; Some ""; Some "3"] /\
    code_ok (code s) = true.
Proof.
  eexists. split; [vm_compute; reflexivity|]. split; [reflexivity|].
  apply (code_always_six_cells
           [ClickManualDni; TypeDni "12345678"; SubmitDni;
            TypeCode "1" 0; TypeCode "x" 1; TypeCode "29" 1; TypeCode "" 1;
            TypeCode "3" 5; Elapse 3000; ClickValidate]).
  vm_compute. reflexivity.
Defined.

(** *** What starts a verification *)

Lemma every_nonempty_no_empty (a : list cell) :
  every_nonempty a = true -> Forall (fun c => c <> Some "") a.
Proof.
  induction a as [|c a IH]; [constructor|].
  simpl. intros E. apply andb_true_iff in E as [Ec Ea].
  constructor; [|now apply IH].
  destruct c as [[|x r]|]; [discriminate| |]; discriminate.
Qed.

(** C4: starting from six empty cells, entering 1,2,3,4,5,6 into cells 0..5
    in order calls [validateCode] exactly once, on the sixth entry, with the
    argument "123456".  In general a change calls it at most once, with the
    concatenation of the updated cells, and only from index 5 and only when
    no updated cell holds the empty string; on a well-formed array that is
    six cells with one digit each. *)
Theorem six_digits_one_verification (s : state) :
  code s = [Some ""; Some ""; Some ""; Some ""; Some ""; Some ""] ->
  let s1 := handleCodeChange "1" 0 s in
  let s2 := handleCodeChange "2" 1 s1 in
  let s3 := handleCodeChange "3" 2 s2 in
  let s4 := handleCodeChange "4" 3 s3 in
  let s5 := handleCodeChange "5" 4 s4 in
  let s6 := handleCodeChange "6" 5 s5 in
  validateCalls s1 = validateCalls s /\ validateCalls s2 = validateCalls s /\
  validateCalls s3 = validateCalls s /\ validateCalls s4 = validateCalls s /\
  validateCalls s5 = validateCalls s /\
  validateCalls s6 = (validateCalls s ++ ["123456"])%list /\
  (forall raw i s0,
     validateCalls (handleCodeChange raw i s0) <> validateCalls s0 ->
     i = 5 /\
     Forall (fun c => c <> Some "") (code (handleCodeChange raw i s0)) /\
     validateCalls (handleCodeChange raw i s0)
     = (validateCalls s0 ++ [join (code (handleCodeChange raw i s0))])%list /\
     (code_ok (code s0) = true ->
      length (code (handleCodeChange raw i s0)) = 6 /\
      Forall (fun c => exists d, is_digit d = true /\ c = Some (String d ""))
             (code (handleCodeChange raw i s0)))).
Proof.
  intros C. destruct s as [st d c l n f t v fi]. simpl in C. subst c.
  do 6 (split; [reflexivity|]).
  intros raw i s0 N.
  destruct (handleCodeChange_validateCalls raw i s0) as [E|[Ei [Ee Ev]]];
    [contradiction|].
  apply every_nonempty_no_empty in Ee.
  split; [exact Ei|]. split; [exact Ee|]. split; [exact Ev|].
  intros K.
  assert (K' : code_ok (code (handleCodeChange raw i s0)) = true)
    by (apply handleCodeChange_code_ok; [lia|exact K]).
  apply code_ok_spec in K' as [Len F]. split; [exact Len|].
  apply List.Forall_forall. intros x In.
  rewrite List.Forall_forall in Ee, F.
  specialize (Ee x In). specialize (F x In).
  destruct x as [[|d0 [|e r]]|]; simpl in F; try discriminate.
  - now contradiction Ee.
  - now exists d0.
Qed.

Lemma six_digits_one_verification_witness :
  let s6 :=
    handleCodeChange "6" 5 (handleCodeChange "5" 4 (handleCodeChange "4" 3
      (handleCodeChange "3" 2 (handleCodeChange "2" 1
        (handleCodeChange "1" 0 (setStep MANUAL_CODE initialState)))))) in
  validateCalls s6 = ["123456"].
Proof.
  pose proof (six_digits_one_verification
                (setStep MANUAL_CODE initialState) eq_refl) as H.
  simpl in H. simpl. tauto.
Defined.

(** * Beyond the claims *)

(** ** More on code entry *)

Lemma slice_last_idempotent (raw : string) :
  slice_last (slice_last raw) = slice_last raw.
Proof.
  destruct (slice_last_cases raw) as [E|[c E]]; now rewrite E.
Qed.

(** X1: Only the last character of the field counts: a change behaves as if
    that character alone had been typed.  Typing over a digit replaces it,
    and a pasted string ending in a digit is accepted. *)
Theorem handleCodeChange_last_character (raw : string) (i : nat) (s : state) :
  handleCodeChange raw i s = handleCodeChange (slice_last raw) i s.
Proof. unfold handleCodeChange. now rewrite slice_last_idempotent. Qed.

Lemma array_set_lookup_ne (i j : nat) (v : string) (a : list cell) :
  i < length a -> j <> i -> array_set i v a !! j = a !! j.
Proof.
  intros I N. unfold array_set.
  replace (i <? length a) with true by (symmetry; apply Nat.ltb_lt; lia).
  apply list_lookup_insert_ne. congruence.
Qed.

Lemma array_set_length (i : nat) (v : string) (a : list cell) :
  i < length a -> length (array_set i v a) = length a.
Proof.
  intros I. unfold array_set.
  replace (i <? length a) with true by (symmetry; apply Nat.ltb_lt; lia).
  apply length_insert.
Qed.

(** The code array after a change: the old one, or the old one with cell
    [i] overwritten. *)
Lemma handleCodeChange_code (raw : string) (i : nat) (s : state) :
  code (handleCodeChange raw i s) = code s \/
  exists v, code (handleCodeChange raw i s) = array_set i v (code s).
Proof.
  unfold handleCodeChange.
  destruct (String.eqb (slice_last raw) "").
  { right. exists "". now destruct (0 <? i). }
  destruct (test_nondigit (slice_last raw)); [now left|].
  right. exists (slice_last raw). cbv zeta.
  destruct ((i =? 5) && _); [rewrite validateCode_code|];
    now destruct (negb false && (i <? 5)).
Qed.

Lemma array_set_lookup_eq (i : nat) (v : string) (a : list cell) :
  i < length a -> array_set i v a !! i = Some (Some v).
Proof.
  intros I. unfold array_set.
  replace (i <? length a) with true by (symmetry; apply Nat.ltb_lt; lia).
  now apply list_lookup_insert_eq.
Qed.

(** X2: A change at cell [i] of the array touches that cell only: the length
    and every other cell are kept, and cell [i] then holds the empty string
    after an erasure, the digit after a digit, and what it held before after
    anything else. *)
Theorem handleCodeChange_cell (raw : string) (i : nat) (s : state) :
  i < length (code s) ->
  let s' := handleCodeChange raw i s in
  length (code s') = length (code s) /\
  (forall j, j <> i -> code s' !! j = code s !! j) /\
  code s' !! i =
    if String.eqb (slice_last raw) "" then Some (Some "")
    else if test_nondigit (slice_last raw) then code s !! i
    else Some (Some (slice_last raw)).
Proof.
  intros I s'. unfold s', handleCodeChange.
  destruct (String.eqb (slice_last raw) "").
  { assert (E : code (if 0 <? i
                      then focusCell (i - 1)
                             (setCode (array_set i "" (code s)) s)
                      else setCode (array_set i "" (code s)) s)
                = array_set i "" (code s)) by now destruct (0 <? i).
    rewrite E. split; [now apply array_set_length|].
    split; [intros j N; now apply array_set_lookup_ne
           |now apply array_set_lookup_eq]. }
  destruct (test_nondigit (slice_last raw)); [now repeat split|].
  cbv zeta.
  match goal with
  | |- context [code ?x] =>
      assert (E : code x = array_set i (slice_last raw) (code s))
  end.
  { destruct ((i =? 5) && _); [rewrite validateCode_code|];
      now destruct (negb false && (i <? 5)). }
  rewrite E. split; [now apply array_set_length|].
  split; [intros j N; now apply array_set_lookup_ne
         |now apply array_set_lookup_eq].
Qed.

Lemma handleCodeChange_cell_witness :
  let s := setCode [Some "1"; Some "2"; Some ""; Some ""; Some ""; Some ""]
             (setStep MANUAL_CODE initialState) in
  code (handleCodeChange "29" 1 s) !! 1 = Some (Some "9") /\
  code (handleCodeChange "29" 1 s) !! 0 = Some (Some "1") /\
  code (handleCodeChange "" 1 s) !! 1 = Some (Some "").
Proof.
  intros s.
  pose proof (handleCodeChange_cell "29" 1 s ltac:(simpl; lia)) as H.
  pose proof (handleCodeChange_cell "" 1 s ltac:(simpl; lia)) as H'.
  cbv zeta in H, H'. destruct H as (_ & H0 & H1). destruct H' as (_ & _ & H2).
  split; [exact H1|split; [exact (H0 0 ltac:(lia))|exact H2]].
Defined.

(** *** What reaches the verification *)

Lemma string_length_app (x y : string) :
  String.length (x ++ y) = String.length x + String.length y.
Proof. induction x as [|c x IH]; simpl; [reflexivity|now rewrite IH]. Qed.

Lemma test_nondigit_app (x y : string) :
  test_nondigit (x ++ y) = test_nondigit x || test_nondigit y.
Proof.
  induction x as [|c x IH]; simpl; [reflexivity|].
  now rewrite IH, orb_assoc.
Qed.

(** On well-formed cells, the concatenation has one digit per non-empty
    cell and nothing else. *)
Lemma join_well_formed (a : list cell) :
  Forall (fun c => cell_ok c = true) a ->
  test_nondigit (join a) = false /\
  String.length (join a) <= length a /\
  (every_nonempty a = true -> String.length (join a) = length a) /\
  (every_nonempty a = false -> String.length (join a) < length a).
Proof.
  induction 1 as [|c a C _ (IH1 & IH2 & IH3 & IH4)].
  { simpl. repeat split; try lia; try discriminate. }
  destruct c as [[|d [|e r]]|]; simpl in C; try discriminate.
  - simpl. repeat split; try lia; try discriminate; try exact IH1.
  - cbn [join every_nonempty forallb]. simpl String.eqb. simpl negb.
    rewrite test_nondigit_app, string_length_app, test_nondigit_single, C, IH1.
    simpl. repeat split; try lia.
    + intros E. rewrite IH3; [reflexivity|exact E].
    + intros E. apply IH4 in E. lia.
Qed.

(** X3: Auto-submission: a digit typed into the last cell of a well-formed
    array whose first five cells are filled starts the verification of the
    concatenation of the six cells, which is a string of six digits, so that
    the length test of [validateCode] passes and the check is scheduled.  It
    does so whether or not the last cell was already filled. *)
Theorem handleCodeChange_auto_submit (c : ascii) (s : state) :
  is_digit c = true -> code_ok (code s) = true ->
  every_nonempty (take 5 (code s)) = true ->
  let s' := handleCodeChange (String c "") 5 s in
  let entered := join (code s') in
  String.length entered = 6 /\ test_nondigit entered = false /\
  validateCalls s' = (validateCalls s ++ [entered])%list /\
  isLoading s' = true /\
  timers s' = (timers s ++ [(1500, CodeOutcome entered)])%list /\
  notification s' = notification s /\ step s' = step s.
Proof.
  intros D C F s' entered.
  assert (C' : code_ok (array_set 5 (String c "") (code s)) = true).
  { apply array_set_ok; [lia| |exact C]. simpl. exact D. }
  assert (E : every_nonempty (array_set 5 (String c "") (code s)) = true).
  { apply code_ok_spec in C as [L _].
    destruct (code s) as [|c0 [|c1 [|c2 [|c3 [|c4 [|c5 [|? ?]]]]]]];
      try discriminate.
    unfold array_set. simpl. simpl in F. now rewrite F. }
  apply code_ok_spec in C' as [L' F'].
  destruct (join_well_formed _ F') as (J1 & _ & J3 & _).
  specialize (J3 E). rewrite L' in J3.
  assert (S' : s' = validateCode (join (array_set 5 (String c "") (code s)))
                      (setCode (array_set 5 (String c "") (code s)) s)).
  { unfold s', handleCodeChange. rewrite slice_last_single.
    simpl String.eqb. rewrite test_nondigit_single, D. cbv iota zeta.
    simpl negb. now rewrite E. }
  assert (Ent : entered = join (array_set 5 (String c "") (code s))).
  { unfold entered. now rewrite S', validateCode_code. }
  rewrite Ent. split; [exact J3|]. split; [exact J1|].
  rewrite S'. unfold validateCode. rewrite J3. now repeat split.
Qed.

Lemma handleCodeChange_auto_submit_witness :
  let s := setCode [Some "1"; Some "2"; Some "3"; Some "4"; Some "5";
                    Some "9"]
             (setStep MANUAL_CODE initialState) in
  let s' := handleCodeChange "6" 5 s in
  validateCalls s' = ["123456"] /\ isLoading s' = true /\
  timers s' = [(1500, CodeOutcome "123456")].
Proof.
  intros s s'.
  pose proof (handleCodeChange_auto_submit "6"%char s eq_refl eq_refl eq_refl)
    as H.
  cbv zeta in H. destruct H as (_ & _ & H1 & H2 & H3 & _).
  exact (conj H1 (conj H2 H3)).
Defined.

(** X4: Typing into a cell of a well-formed array is silent: whatever the
    input, the step, the DNI and the notification stay as they are (the
    check that auto-submission can start never takes the too-short
    branch). *)
Theorem handleCodeChange_silent (raw : string) (i : nat) (s : state) :
  i < 6 -> code_ok (code s) = true ->
  let s' := handleCodeChange raw i s in
  step s' = step s /\ dni s' = dni s /\ notification s' = notification s.
Proof.
  intros I C s'. unfold s', handleCodeChange.
  destruct (String.eqb (slice_last raw) "") eqn:E0.
  { now destruct (0 <? i). }
  destruct (slice_last_cases raw) as [E|[c E]];
    [rewrite E in E0; discriminate|].
  rewrite E, test_nondigit_single.
  destruct (is_digit c) eqn:D; [|now repeat split]. cbv iota zeta.
  assert (C' : code_ok (array_set i (String c "") (code s)) = true).
  { apply array_set_ok; [exact I| |exact C]. simpl. exact D. }
  destruct ((i =? 5) && every_nonempty _) eqn:V;
    [|now destruct (negb false && (i <? 5))].
  apply andb_true_iff in V as [_ V].
  apply code_ok_spec in C' as [L' F'].
  destruct (join_well_formed _ F') as (_ & _ & J3 & _).
  specialize (J3 V). rewrite L' in J3.
  unfold validateCode. rewrite J3.
  now destruct (negb false && (i <? 5)).
Qed.

Lemma handleCodeChange_silent_witness :
  let s := showNotification "x" None
             (setCode [Some "1"; Some "2"; Some "3"; Some "4"; Some "5";
                       Some ""]
                (setStep MANUAL_CODE initialState)) in
  notification (handleCodeChange "6" 5 s) = notification s.
Proof.
  intros s.
  pose proof (handleCodeChange_silent "6" 5 s ltac:(lia) eq_refl) as H.
  cbv zeta in H. destruct H as (_ & _ & H). exact H.
Defined.

(** X5: The validate button on a well-formed array: with all six cells filled
    the check of their concatenation is scheduled and the loading flag
    stays up; with an empty cell an error is shown, the flag is back down
    and no check is scheduled.  Neither the cells nor the step change. *)
Theorem validateCode_default_complete_or_error (s : state) :
  code_ok (code s) = true ->
  let s' := validateCode_default s in
  code s' = code s /\ step s' = step s /\
  if every_nonempty (code s) then
    isLoading s' = true /\ notification s' = notification s /\
    timers s' = (timers s ++ [(1500, CodeOutcome (join (code s)))])%list
  else
    isLoading s' = false /\ notified s' = Some type_error /\
    timers s' = (timers s ++ [(2500, ClearNotification)])%list.
Proof.
  intros C s'. apply code_ok_spec in C as [L F].
  destruct (join_well_formed _ F) as (_ & _ & J3 & J4).
  unfold s', validateCode_default, validateCode.
  destruct (every_nonempty (code s)).
  - rewrite (J3 eq_refl), L. now repeat split.
  - specialize (J4 eq_refl). rewrite L in J4.
    replace (String.length (join (code s)) <? 6) with true
      by (symmetry; now apply Nat.ltb_lt).
    now repeat split.
Qed.

Lemma validateCode_default_complete_or_error_witness :
  let s := setCode [Some "1"; Some "2"; Some "3"; Some "4"; Some "5";
                    Some ""]
             (setStep MANUAL_CODE initialState) in
  isLoading (validateCode_default s) = false /\
  notified (validateCode_default s) = Some type_error /\
  timers (validateCode_default s) = [(2500, ClearNotification)].
Proof.
  intros s.
  pose proof (validateCode_default_complete_or_error s eq_refl) as H.
  cbv zeta in H. destruct H as (_ & _ & H). exact H.
Defined.

(** ** Properties kept along every run *)

Section Invariant.

Variable Inv : state -> Prop.
Hypothesis Inv_setTimers : forall ts s, Inv s -> Inv (setTimers ts s).
Hypothesis Inv_fire : forall s cb, Inv s -> Inv (fire s cb).

Lemma fold_fire_invariant (cbs : list callback) : forall s : state,
  Inv s -> Inv (fold_left fire cbs s).
Proof.
  induction cbs as [|cb cbs IH]; intros s H; [exact H|].
  simpl. apply IH. now apply Inv_fire.
Qed.

Lemma tick_invariant (s : state) : Inv s -> Inv (tick s).
Proof.
  intros H. unfold tick. apply fold_fire_invariant. now apply Inv_setTimers.
Qed.

Lemma wait_invariant (ms : nat) : forall s : state, Inv s -> Inv (wait ms s).
Proof.
  induction ms as [|ms IH]; intros s H; [exact H|].
  simpl. apply IH. now apply tick_invariant.
Qed.

End Invariant.

Section RunInvariant.

Variable Inv : state -> Prop.
Hypothesis Inv_wait : forall ms s, Inv s -> Inv (wait ms s).
Hypothesis Inv_user : forall e s s',
  is_user_event e = true -> Inv s -> dispatch e s = Some s' -> Inv s'.

Lemma dispatch_invariant (e : event) (s s' : state) :
  Inv s -> dispatch e s = Some s' -> Inv s'.
Proof.
  intros H D. destruct (is_user_event e) eqn:U; [now apply (Inv_user e s)|].
  destruct e; try discriminate. simpl in D. injection D as <-.
  now apply Inv_wait.
Qed.

Lemma run_invariant (es : list event) : forall s0 s : state,
  Inv s0 -> run es s0 = Some s -> Inv s.
Proof.
  induction es as [|e es IH]; intros s0 s H R; simpl in R.
  - now injection R as <-.
  - destruct (dispatch e s0) as [s1|] eqn:D; [|discriminate].
    eapply IH; [|exact R]. eapply dispatch_invariant; eassumption.
Qed.

End RunInvariant.

(** ** Steps *)

Lemma stepEffect_step (s : state) : step (stepEffect s) = step s.
Proof.
  unfold stepEffect.
  destruct (String.eqb (step s) MANUAL_CODE); [reflexivity|].
  now destruct (String.eqb (step s) SUCCESS).
Qed.

Lemma update_step (h : handler) (s : state) :
  step (update h s) = step (h s).
Proof.
  unfold update.
  destruct (String.eqb (step s) (step (h s))); [reflexivity|].
  apply stepEffect_step.
Qed.

Lemma validateCode_step (e : string) (s : state) :
  step (validateCode e s) = step s.
Proof. unfold validateCode. now destruct (String.length e <? 6). Qed.

Lemma handleCodeChange_step (raw : string) (i : nat) (s : state) :
  step (handleCodeChange raw i s) = step s.
Proof.
  unfold handleCodeChange.
  destruct (String.eqb (slice_last raw) ""); [now destruct (0 <? i)|].
  destruct (test_nondigit (slice_last raw)); [reflexivity|]. cbv zeta.
  destruct ((i =? 5) && _); [rewrite validateCode_step|];
    now destruct (negb false && (i <? 5)).
Qed.

Lemma fire_step (s : state) (cb : callback) :
  step (fire s cb) = step s \/ step (fire s cb) = MANUAL_DNI \/
  step (fire s cb) = SUCCESS.
Proof.
  unfold fire. rewrite update_step.
  destruct cb as [| | |[|]| |e]; simpl; auto.
  destruct (String.eqb e "123456"); auto.
Qed.

Lemma wait_step_cases (ms : nat) (s : state) :
  step (wait ms s) = step s \/ step (wait ms s) = MANUAL_DNI \/
  step (wait ms s) = SUCCESS.
Proof.
  apply (wait_invariant
           (fun s' => step s' = step s \/ step s' = MANUAL_DNI \/
                      step s' = SUCCESS)); [auto| |auto].
  intros s0 cb H. destruct (fire_step s0 cb) as [E|[E|E]]; rewrite E; auto.
Qed.

Lemma dispatch_edge (e : event) (s s' : state) :
  is_user_event e = true -> dispatch e s = Some s' ->
  user_edge (step s) (step s') = true /\ step s' <> SUCCESS.
Proof.
  intros U. unfold dispatch, renderStep.
  destruct (String.eqb_spec (step s) INITIAL) as [E1|_];
    [|destruct (String.eqb_spec (step s) FACIAL_RECOGNITION) as [E2|_];
      [|destruct (String.eqb_spec (step s) MANUAL_DNI) as [E3|_];
        [|destruct (String.eqb_spec (step s) MANUAL_CODE) as [E4|_];
          [|destruct (String.eqb (step s) SUCCESS)]]]];
    destruct e as [b| | |x| |raw i| |ms];
    try discriminate;
    try (intros [= <-]; rewrite update_step).
  - rewrite E1. now split.
  - rewrite E1. now split.
  - destruct (isLoading s); [discriminate|].
    intros [= <-]. rewrite update_step, E2. now split.
  - rewrite E3. now split.
  - simpl. rewrite E3. now split.
  - unfold handleDniSubmit.
    destruct (negb (String.length (dni s) =? 8)); simpl; rewrite E3;
      now split.
  - rewrite E4. now split.
  - destruct (cellIndex_ok i); [|discriminate].
    intros [= <-]. rewrite update_step, handleCodeChange_step, E4. now split.
  - unfold validateCode_default. rewrite validateCode_step, E4. now split.
Qed.

(** X6: Time alone moves the step nowhere but to ManualDni (a failed camera
    probe) or to Success: it never brings back Initial, FacialRecognition or
    ManualCode. *)
Theorem time_never_goes_back (ms : nat) (s : state) :
  step (wait ms s) = step s \/ step (wait ms s) = MANUAL_DNI \/
  step (wait ms s) = SUCCESS.
Proof. apply wait_step_cases. Qed.

(** X7: A control moves the step along one of the edges of [user_edge]; in
    particular no control leads to Success, which only a timer reaches. *)
Theorem controls_follow_edges (e : event) (s s' : state) :
  is_user_event e = true -> dispatch e s = Some s' ->
  user_edge (step s) (step s') = true /\ step s' <> SUCCESS.
Proof. apply dispatch_edge. Qed.

Lemma controls_follow_edges_witness :
  let s := setDni "12345678" (setStep MANUAL_DNI initialState) in
  exists s', dispatch SubmitDni s = Some s' /\ step s' = MANUAL_CODE /\
             user_edge (step s) (step s') = true.
Proof.
  intros s. eexists. split; [reflexivity|]. split; [reflexivity|].
  exact (proj1 (controls_follow_edges SubmitDni s _ eq_refl eq_refl)).
Defined.

Lemma user_edge_known (a b : LoginStep) :
  user_edge a b = true -> known_step b = true.
Proof.
  unfold user_edge, known_step. intros H.
  repeat (apply orb_true_iff in H as [H|H]);
    apply andb_true_iff in H as [_ H];
    repeat (apply orb_true_iff in H as [H|H]);
    rewrite H; repeat rewrite orb_true_r; reflexivity.
Qed.

Lemma run_known_step (es : list event) (s0 s : state) :
  known_step (step s0) = true -> run es s0 = Some s ->
  known_step (step s) = true.
Proof.
  apply (run_invariant (fun s' => known_step (step s') = true)).
  - intros ms s1 H. destruct (wait_step_cases ms s1) as [E|[E|E]]; now rewrite E.
  - intros e s1 s2 U _ D.
    apply user_edge_known with (step s1).
    now destruct (dispatch_edge e s1 s2 U D).
Qed.

(** X8: In every state reached from the first render the step is one of the
    five of [LoginStep]: the [default] branch of [renderStep] is dead code
    and a view is always on screen. *)
Theorem reachable_step_known (es : list event) (s : state) :
  run es initialState = Some s ->
  known_step (step s) = true /\ renderStep s <> None.
Proof.
  intros R.
  assert (K : known_step (step s) = true)
    by (now apply (run_known_step es initialState)).
  split; [exact K|]. unfold known_step in K. unfold renderStep.
  destruct (String.eqb (step s) INITIAL); [discriminate|].
  destruct (String.eqb (step s) FACIAL_RECOGNITION); [discriminate|].
  destruct (String.eqb (step s) MANUAL_DNI); [discriminate|].
  destruct (String.eqb (step s) MANUAL_CODE); [discriminate|].
  destruct (String.eqb (step s) SUCCESS); [discriminate|].
  discriminate.
Qed.

Lemma reachable_step_known_witness :
  exists s,
    run [ClickStartFacialRecognition true; Elapse 3000] initialState
    = Some s /\ step s = MANUAL_DNI /\ renderStep s <> None.
Proof.
  eexists. split; [vm_compute; reflexivity|]. split; [reflexivity|].
  apply (reachable_step_known
           [ClickStartFacialRecognition true; Elapse 3000]).
  vm_compute. reflexivity.
Defined.

(** ** Focus *)

Lemma focus_handleCodeChange (raw : string) (i : nat) (s : state) :
  i < 6 -> focus_ok s = true -> focus_ok (handleCodeChange raw i s) = true.
Proof.
  intros I F. unfold handleCodeChange.
  destruct (String.eqb (slice_last raw) "").
  { destruct (Nat.ltb_spec 0 i); [|exact F].
    unfold focus_ok. simpl. apply Nat.ltb_lt. lia. }
  destruct (test_nondigit (slice_last raw)); [exact F|]. cbv zeta.
  simpl negb. simpl andb.
  assert (F' : focus_ok
                 (if i <? 5
                  then focusCell (i + 1)
                         (setCode (array_set i (slice_last raw) (code s)) s)
                  else setCode (array_set i (slice_last raw) (code s)) s)
               = true).
  { destruct (Nat.ltb_spec i 5); [|exact F].
    unfold focus_ok. simpl. apply Nat.ltb_lt. lia. }
  destruct ((i =? 5) && _); [|exact F'].
  unfold validateCode. destruct (String.length _ <? 6); exact F'.
Qed.

Lemma focus_update (h : handler) (s : state) :
  focus_ok (update h s) = focus_ok (h s).
Proof.
  unfold update. destruct (String.eqb (step s) (step (h s))); [reflexivity|].
  unfold stepEffect.
  destruct (String.eqb (step (h s)) MANUAL_CODE); [reflexivity|].
  now destruct (String.eqb (step (h s)) SUCCESS).
Qed.

Lemma run_focus_ok (es : list event) (s0 s : state) :
  focus_ok s0 = true -> run es s0 = Some s -> focus_ok s = true.
Proof.
  apply (run_invariant (fun s' => focus_ok s' = true)).
  - intros ms s1 H.
    apply (wait_invariant (fun s' => focus_ok s' = true)); [auto| |exact H].
    intros s2 cb H2. unfold fire. rewrite focus_update.
    destruct cb as [| | |[|]| |e]; simpl; auto.
    destruct (String.eqb e "123456"); auto.
  - intros e s1 s2 U F. unfold dispatch, renderStep.
    destruct (String.eqb (step s1) INITIAL);
      [|destruct (String.eqb (step s1) FACIAL_RECOGNITION);
        [|destruct (String.eqb (step s1) MANUAL_DNI);
          [|destruct (String.eqb (step s1) MANUAL_CODE);
            [|destruct (String.eqb (step s1) SUCCESS)]]]];
      destruct e as [b| | |x| |raw i| |ms];
      try discriminate;
      try (intros [= <-]; rewrite focus_update; exact F).
    + destruct (isLoading s1); [discriminate|].
      intros [= <-]. now rewrite focus_update.
    + intros [= <-]. rewrite focus_update. unfold handleDniSubmit.
      now destruct (negb (String.length (dni s1) =? 8)).
    + unfold cellIndex_ok. destruct (Nat.ltb_spec i 6); [|discriminate].
      intros [= <-]. rewrite focus_update.
      now apply focus_handleCodeChange.
    + intros [= <-]. rewrite focus_update.
      unfold validateCode_default, validateCode.
      now destruct (String.length _ <? 6).
Qed.

(** X9: The focus is only ever requested on one of the six cells: moving back
    from cell 0 or forward from cell 5 is never attempted. *)
Theorem reachable_focus_in_range (es : list event) (s : state) (j : nat) :
  run es initialState = Some s -> focused s = Some j -> j < 6.
Proof.
  intros R F.
  assert (H : focus_ok s = true) by now apply (run_focus_ok es initialState).
  unfold focus_ok in H. rewrite F in H. now apply Nat.ltb_lt.
Qed.

Lemma reachable_focus_in_range_witness :
  exists s,
    run [ClickManualDni; TypeDni "12345678"; SubmitDni; TypeCode "4" 4]
        initialState = Some s /\
    focused s = Some 5 /\ 5 < 6.
Proof.
  assert (R : exists s,
            run [ClickManualDni; TypeDni "12345678"; SubmitDni;
                 TypeCode "4" 4] initialState = Some s /\
            focused s = Some 5).
  { eexists. split; [vm_compute; reflexivity|reflexivity]. }
  destruct R as (s & R & F). exists s. split; [exact R|]. split; [exact F|].
  exact (reachable_focus_in_range _ s 5 R F).
Defined.

(** ** Flags and the callbacks that lower them *)

Lemma stepEffect_timers (s : state) :
  exists new, timers (stepEffect s) = (timers s ++ new)%list.
Proof.
  unfold stepEffect.
  destruct (String.eqb (step s) MANUAL_CODE); [now eexists|].
  destruct (String.eqb (step s) SUCCESS); [now eexists|].
  exists []. now rewrite app_nil_r.
Qed.

Lemma update_timers (h : handler) (s : state) :
  exists new, timers (update h s) = (timers (h s) ++ new)%list.
Proof.
  unfold update. destruct (String.eqb (step s) (step (h s))).
  - exists []. now rewrite app_nil_r.
  - apply stepEffect_timers.
Qed.

Lemma run_callback_timers (cb : callback) (s : state) :
  exists new, timers (run_callback cb s) = (timers s ++ new)%list.
Proof.
  destruct cb as [| | |[|]| |e]; simpl;
    try (exists []; now rewrite app_nil_r); try (now eexists).
  - eexists. now rewrite <- app_assoc.
  - destruct (String.eqb e "123456"); simpl; eexists;
      [now rewrite <- app_assoc|reflexivity].
Qed.

Lemma fire_timers (s : state) (cb : callback) :
  exists new, timers (fire s cb) = (timers s ++ new)%list.
Proof.
  unfold fire.
  destruct (update_timers (run_callback cb) (recordFired cb s)) as [n1 E1].
  destruct (run_callback_timers cb (recordFired cb s)) as [n2 E2].
  exists (n2 ++ n1)%list. rewrite E1, E2. simpl. now rewrite <- app_assoc.
Qed.

Lemma pending_app (p : callback -> bool) (s s' : state)
    (new : list (nat * callback)) :
  timers s' = (timers s ++ new)%list ->
  pending p s = true -> pending p s' = true.
Proof.
  unfold pending. intros ->. rewrite existsb_app. now intros ->.
Qed.

Lemma pending_count_down (p : callback -> bool)
    (ts : list (nat * callback)) :
  existsb (fun t => p (snd t)) ts
  = existsb (fun t => p (snd t))
      (List.filter (fun t => negb (is_due t)) (map count_down ts))
    || existsb p (map snd (List.filter is_due (map count_down ts))).
Proof.
  induction ts as [|[k cb] ts IH]; [reflexivity|].
  cbn [map List.filter existsb]. rewrite IH.
  destruct (is_due (count_down (k, cb))); simpl;
    destruct (p cb); simpl; rewrite ?orb_true_r; reflexivity.
Qed.

Section Guarded.

Variable flag : state -> bool.
Variable p : callback -> bool.
Hypothesis flag_setTimers : forall ts s, flag (setTimers ts s) = flag s.
Hypothesis fire_lowers : forall s cb, p cb = true -> flag (fire s cb) = false.
Hypothesis fire_raises : forall s cb,
  p cb = false -> flag (fire s cb) = true ->
  flag s = true \/ pending p (fire s cb) = true.

Lemma fold_fire_guarded (cbs : list callback) : forall s : state,
  guarded_with flag p cbs s -> guarded flag p (fold_left fire cbs s).
Proof.
  induction cbs as [|cb cbs IH]; intros s G.
  - intros F. destruct (G F) as [H|H]; [exact H|discriminate].
  - simpl. apply IH. intros F.
    destruct (p cb) eqn:P.
    + rewrite (fire_lowers s cb P) in F. discriminate.
    + destruct (fire_raises s cb P F) as [F0|H]; [|now left].
      destruct (fire_timers s cb) as [new E].
      destruct (G F0) as [H|H].
      * left. now apply (pending_app p s _ new).
      * right. simpl in H. now rewrite P in H.
Qed.

Lemma tick_guarded (s : state) : guarded flag p s -> guarded flag p (tick s).
Proof.
  intros G. unfold tick. apply fold_fire_guarded. intros F.
  rewrite flag_setTimers in F. specialize (G F).
  unfold pending in G. rewrite pending_count_down in G.
  apply orb_true_iff in G as [H|H]; [left|right]; exact H.
Qed.

Lemma wait_guarded (ms : nat) : forall s : state,
  guarded flag p s -> guarded flag p (wait ms s).
Proof.
  induction ms as [|ms IH]; intros s G; [exact G|].
  simpl. apply IH. now apply tick_guarded.
Qed.

End Guarded.

(** *** The loading flag *)

Lemma isLoading_update (h : handler) (s : state) :
  isLoading (update h s) = isLoading (h s).
Proof.
  unfold update. destruct (String.eqb (step s) (step (h s))); [reflexivity|].
  unfold stepEffect.
  destruct (String.eqb (step (h s)) MANUAL_CODE); [reflexivity|].
  now destruct (String.eqb (step (h s)) SUCCESS).
Qed.

Lemma fire_outcome_lowers (s : state) (cb : callback) :
  is_outcome cb = true -> isLoading (fire s cb) = false.
Proof.
  intros O. unfold fire. rewrite isLoading_update.
  destruct cb as [| | |[|]| |e]; try discriminate; try reflexivity.
  simpl. now destruct (String.eqb e "123456").
Qed.

Lemma fire_other_loading (s : state) (cb : callback) :
  is_outcome cb = false -> isLoading (fire s cb) = isLoading s.
Proof.
  intros O. unfold fire. rewrite isLoading_update.
  now destruct cb as [| | |[|]| |e]; try discriminate.
Qed.

Lemma wait_loading_guarded (ms : nat) (s : state) :
  guarded isLoading is_outcome s -> guarded isLoading is_outcome (wait ms s).
Proof.
  apply wait_guarded; [reflexivity|exact fire_outcome_lowers|].
  intros s0 cb O F. left. now rewrite <- (fire_other_loading s0 cb O).
Qed.

(** A handler that keeps the flag and only adds timers keeps the guard. *)
Lemma guarded_frame (flag : state -> bool) (p : callback -> bool)
    (s s' : state) (new : list (nat * callback)) :
  flag s' = flag s -> timers s' = (timers s ++ new)%list ->
  guarded flag p s -> guarded flag p s'.
Proof.
  intros F T G H. rewrite F in H. now apply (pending_app p s s' new T), G.
Qed.

Lemma guarded_update (flag : state -> bool) (p : callback -> bool)
    (h : handler) (s : state) :
  flag (update h s) = flag (h s) ->
  guarded flag p (h s) -> guarded flag p (update h s).
Proof.
  intros F G. destruct (update_timers h s) as [new E].
  now apply (guarded_frame flag p (h s) _ new).
Qed.

Lemma validateCode_loading_guarded (e : string) (s : state) :
  guarded isLoading is_outcome (validateCode e s).
Proof.
  unfold validateCode, guarded, pending.
  destruct (String.length e <? 6); simpl; [discriminate|].
  intros _. rewrite existsb_app. simpl. apply orb_true_r.
Qed.

Lemma handleCodeChange_loading_guarded (raw : string) (i : nat) (s : state) :
  guarded isLoading is_outcome s ->
  guarded isLoading is_outcome (handleCodeChange raw i s).
Proof.
  intros G. unfold handleCodeChange.
  destruct (String.eqb (slice_last raw) ""); [now destruct (0 <? i)|].
  destruct (test_nondigit (slice_last raw)); [exact G|]. cbv zeta.
  destruct ((i =? 5) && _); [apply validateCode_loading_guarded|].
  now destruct (negb false && (i <? 5)).
Qed.

Lemma dispatch_loading_guarded (e : event) (s s' : state) :
  is_user_event e = true -> guarded isLoading is_outcome s ->
  dispatch e s = Some s' -> guarded isLoading is_outcome s'.
Proof.
  intros U G. unfold dispatch, renderStep.
  destruct (String.eqb (step s) INITIAL);
    [|destruct (String.eqb (step s) FACIAL_RECOGNITION);
      [|destruct (String.eqb (step s) MANUAL_DNI);
        [|destruct (String.eqb (step s) MANUAL_CODE);
          [|destruct (String.eqb (step s) SUCCESS)]]]];
    destruct e as [b| | |x| |raw i| |ms];
    try discriminate;
    try (intros [= <-]; apply guarded_update;
         [apply isLoading_update|]).
  - intros _. unfold pending. simpl. rewrite existsb_app. simpl.
    apply orb_true_r.
  - exact G.
  - destruct (isLoading s); [discriminate|].
    intros [= <-]. apply guarded_update; [apply isLoading_update|exact G].
  - exact G.
  - exact G.
  - unfold handleDniSubmit.
    destruct (negb (String.length (dni s) =? 8));
      (eapply guarded_frame; [| |exact G]; reflexivity).
  - exact G.
  - destruct (cellIndex_ok i); [|discriminate].
    intros [= <-]. apply guarded_update; [apply isLoading_update|].
    now apply handleCodeChange_loading_guarded.
  - apply validateCode_loading_guarded.
Qed.

Lemma run_loading_guarded (es : list event) (s0 s : state) :
  guarded isLoading is_outcome s0 -> run es s0 = Some s ->
  guarded isLoading is_outcome s.
Proof.
  apply (run_invariant (guarded isLoading is_outcome)).
  - exact wait_loading_guarded.
  - exact dispatch_loading_guarded.
Qed.

(** X10: The loading flag never sticks: in every state reached from the first
    render, [isLoading] is up only while the outcome of a camera probe or of
    a code check is pending, and that outcome lowers it. *)
Theorem reachable_loading_has_outcome (es : list event) (s : state) :
  run es initialState = Some s -> isLoading s = true ->
  pending is_outcome s = true.
Proof.
  intros R. apply (run_loading_guarded es initialState); [discriminate|exact R].
Qed.

Lemma reachable_loading_has_outcome_witness :
  exists s,
    run [ClickStartFacialRecognition false; Elapse 2999] initialState
    = Some s /\ isLoading s = true /\ pending is_outcome s = true.
Proof.
  eexists. split; [vm_compute; reflexivity|]. split; [reflexivity|].
  apply (reachable_loading_has_outcome
           [ClickStartFacialRecognition false; Elapse 2999]);
    vm_compute; reflexivity.
Defined.

(** *** The notification *)

Lemma shown_update (h : handler) (s : state) :
  shown (update h s) = shown (h s).
Proof.
  unfold update. destruct (String.eqb (step s) (step (h s))); [reflexivity|].
  unfold stepEffect.
  destruct (String.eqb (step (h s)) MANUAL_CODE); [reflexivity|].
  now destruct (String.eqb (step (h s)) SUCCESS).
Qed.

Lemma showNotification_guarded (msg : string) (t : option NotificationType)
    (s : state) :
  guarded shown is_expiry (showNotification msg t s).
Proof.
  intros _. unfold pending. simpl. rewrite existsb_app. simpl.
  apply orb_true_r.
Qed.

Lemma fire_expiry_lowers (s : state) (cb : callback) :
  is_expiry cb = true -> shown (fire s cb) = false.
Proof.
  intros O. unfold fire. rewrite shown_update.
  now destruct cb as [| | |[|]| |e]; try discriminate.
Qed.

Lemma run_callback_outcome_expiry (cb : callback) (s : state) :
  is_outcome cb = true -> pending is_expiry (run_callback cb s) = true.
Proof.
  intros O. unfold pending.
  destruct cb as [| | |[|]| |e]; try discriminate; simpl.
  - rewrite existsb_app. simpl. apply orb_true_r.
  - rewrite !existsb_app. simpl. now rewrite orb_true_r.
  - destruct (String.eqb e "123456"); simpl; rewrite !existsb_app; simpl;
      now rewrite ?orb_true_r.
Qed.

Lemma fire_other_shown (s : state) (cb : callback) :
  is_expiry cb = false -> shown (fire s cb) = true ->
  shown s = true \/ pending is_expiry (fire s cb) = true.
Proof.
  intros O. unfold fire.
  destruct (is_outcome cb) eqn:P.
  - intros _. right.
    destruct (update_timers (run_callback cb) (recordFired cb s)) as [new E].
    apply (pending_app is_expiry _ _ new E).
    now apply run_callback_outcome_expiry.
  - rewrite shown_update. intros F. left.
    now destruct cb as [| | |[|]| |e]; try discriminate.
Qed.

Lemma wait_shown_guarded (ms : nat) (s : state) :
  guarded shown is_expiry s -> guarded shown is_expiry (wait ms s).
Proof.
  apply wait_guarded;
    [reflexivity|exact fire_expiry_lowers|exact fire_other_shown].
Qed.

Lemma validateCode_shown_guarded (e : string) (s : state) :
  guarded shown is_expiry s -> guarded shown is_expiry (validateCode e s).
Proof.
  intros G. unfold validateCode.
  destruct (String.length e <? 6).
  - intros _. unfold pending. simpl. rewrite existsb_app. simpl.
    apply orb_true_r.
  - eapply guarded_frame; [| |exact G]; reflexivity.
Qed.

Lemma handleCodeChange_shown_guarded (raw : string) (i : nat) (s : state) :
  guarded shown is_expiry s ->
  guarded shown is_expiry (handleCodeChange raw i s).
Proof.
  intros G. unfold handleCodeChange.
  destruct (String.eqb (slice_last raw) ""); [now destruct (0 <? i)|].
  destruct (test_nondigit (slice_last raw)); [exact G|]. cbv zeta.
  destruct ((i =? 5) && _); [apply validateCode_shown_guarded|];
    now destruct (negb false && (i <? 5)).
Qed.

Lemma dispatch_shown_guarded (e : event) (s s' : state) :
  is_user_event e = true -> guarded shown is_expiry s ->
  dispatch e s = Some s' -> guarded shown is_expiry s'.
Proof.
  intros U G. unfold dispatch, renderStep.
  destruct (String.eqb (step s) INITIAL);
    [|destruct (String.eqb (step s) FACIAL_RECOGNITION);
      [|destruct (String.eqb (step s) MANUAL_DNI);
        [|destruct (String.eqb (step s) MANUAL_CODE);
          [|destruct (String.eqb (step s) SUCCESS)]]]];
    destruct e as [b| | |x| |raw i| |ms];
    try discriminate;
    try (intros [= <-]; apply guarded_update; [apply shown_update|]).
  - eapply guarded_frame; [| |exact G]; reflexivity.
  - exact G.
  - destruct (isLoading s); [discriminate|].
    intros [= <-]. apply guarded_update; [apply shown_update|exact G].
  - exact G.
  - exact G.
  - unfold handleDniSubmit.
    destruct (negb (String.length (dni s) =? 8)); intros _;
      unfold pending; simpl; rewrite existsb_app; simpl; apply orb_true_r.
  - exact G.
  - destruct (cellIndex_ok i); [|discriminate].
    intros [= <-]. apply guarded_update; [apply shown_update|].
    now apply handleCodeChange_shown_guarded.
  - now apply validateCode_shown_guarded.
Qed.

Lemma run_shown_guarded (es : list event) (s0 s : state) :
  guarded shown is_expiry s0 -> run es s0 = Some s ->
  guarded shown is_expiry s.
Proof.
  apply (run_invariant (guarded shown is_expiry)).
  - exact wait_shown_guarded.
  - exact dispatch_shown_guarded.
Qed.

(** X11: No notification stays for ever: in every state reached from the first
    render, a notification is on screen only while an expiry callback is
    pending, and that callback removes it. *)
Theorem reachable_notification_has_expiry (es : list event) (s : state) :
  run es initialState = Some s -> notification s <> None ->
  pending is_expiry s = true.
Proof.
  intros R N. apply (run_shown_guarded es initialState);
    [discriminate|exact R|].
  unfold shown. now destruct (notification s).
Qed.

Lemma reachable_notification_has_expiry_witness :
  exists s,
    run [ClickManualDni; SubmitDni; Elapse 2499] initialState = Some s /\
    notified s = Some type_error /\ pending is_expiry s = true.
Proof.
  eexists. split; [vm_compute; reflexivity|]. split; [reflexivity|].
  apply (reachable_notification_has_expiry
           [ClickManualDni; SubmitDni; Elapse 2499]);
    [vm_compute; reflexivity|vm_compute; discriminate].
Defined.

(** ** Settling *)

Ltac settle :=
  repeat first [apply List.Forall_nil
               |apply List.Forall_cons; [split; simpl; lia|]].

Lemma settles_within_le (n m : nat) (ts : list (nat * callback)) :
  n <= m -> settles_within n ts -> settles_within m ts.
Proof.
  intros L H. eapply Forall_impl; [exact H|]. intros t [? ?]. split; lia.
Qed.

Lemma settles_within_0 (ts : list (nat * callback)) :
  settles_within 0 ts -> ts = [].
Proof. destruct 1 as [|t ts [? ?] _]; [reflexivity|lia]. Qed.

Lemma stepEffect_settles (n : nat) (s : state) :
  2500 <= n -> settles_within n (timers s) ->
  settles_within n (timers (stepEffect s)).
Proof.
  intros L H. unfold stepEffect.
  destruct (String.eqb (step s) MANUAL_CODE);
    [|destruct (String.eqb (step s) SUCCESS); [|exact H]];
    simpl; apply Forall_app; (split; [exact H|]);
    settle.
Qed.

Lemma update_settles (n : nat) (h : handler) (s : state) :
  2500 <= n -> settles_within n (timers (h s)) ->
  settles_within n (timers (update h s)).
Proof.
  intros L H. unfold update.
  destruct (String.eqb (step s) (step (h s))); [exact H|].
  now apply stepEffect_settles.
Qed.

(** What a callback schedules is over within its [tail]. *)
Lemma fire_settles (n : nat) (s : state) (cb : callback) :
  tail cb <= n -> settles_within n (timers s) ->
  settles_within n (timers (fire s cb)).
Proof.
  intros L H. unfold fire.
  destruct cb as [| | |[|]| |e]; simpl in L;
    try (rewrite update_same_step by reflexivity; exact H).
  - apply update_settles; [lia|]. simpl.
    apply Forall_app. split; [exact H|]. settle.
  - rewrite update_same_step by reflexivity. simpl.
    apply Forall_app. split; [apply Forall_app; split; [exact H|]|];
      settle.
  - apply update_settles; [lia|exact H].
  - rewrite update_same_step
      by (simpl; now destruct (String.eqb e "123456")).
    simpl. destruct (String.eqb e "123456"); simpl.
    + apply Forall_app. split; [apply Forall_app; split; [exact H|]|];
        settle.
    + apply Forall_app. split; [exact H|].
      settle.
Qed.

Lemma fold_fire_settles (n : nat) (cbs : list callback) : forall s : state,
  Forall (fun cb => tail cb <= n) cbs -> settles_within n (timers s) ->
  settles_within n (timers (fold_left fire cbs s)).
Proof.
  induction cbs as [|cb cbs IH]; intros s T H; [exact H|].
  inversion T as [|? ? Tcb Tcbs]; subst.
  simpl. apply IH; [exact Tcbs|]. now apply fire_settles.
Qed.

Lemma count_down_settles (n : nat) (ts : list (nat * callback)) :
  settles_within (S n) ts ->
  Forall (fun cb => tail cb <= n)
         (map snd (List.filter is_due (map count_down ts))) /\
  settles_within n
    (List.filter (fun t => negb (is_due t)) (map count_down ts)).
Proof.
  induction 1 as [|[k cb] ts [K1 K2] _ [IH1 IH2]]; [split; constructor|].
  simpl in K1, K2. cbn [map List.filter].
  destruct (is_due (count_down (k, cb))) eqn:E; simpl.
  - unfold is_due, count_down in E. simpl in E. apply Nat.eqb_eq in E.
    split; [constructor; [lia|exact IH1]|exact IH2].
  - unfold is_due, count_down in E. simpl in E. apply Nat.eqb_neq in E.
    split; [exact IH1|]. constructor; [|exact IH2].
    unfold count_down. simpl. lia.
Qed.

(** With every millisecond the horizon comes one millisecond closer. *)
Lemma tick_settles (n : nat) (s : state) :
  settles_within (S n) (timers s) -> settles_within n (timers (tick s)).
Proof.
  intros H. destruct (count_down_settles n _ H) as [D R].
  unfold tick. now apply fold_fire_settles.
Qed.

Lemma wait_settles (n : nat) : forall s : state,
  settles_within n (timers s) -> timers (wait n s) = [].
Proof.
  induction n as [|n IH]; intros s H; [now apply settles_within_0|].
  simpl. apply IH. now apply tick_settles.
Qed.

Lemma wait_keeps_horizon (n ms : nat) : forall s : state,
  settles_within n (timers s) -> settles_within n (timers (wait ms s)).
Proof.
  induction ms as [|ms IH]; intros s H; [exact H|].
  simpl. apply IH. destruct n as [|n].
  - apply settles_within_0 in H. unfold tick. rewrite H. simpl. constructor.
  - apply settles_within_le with n; [lia|now apply tick_settles].
Qed.

Lemma validateCode_settles (n : nat) (e : string) (s : state) :
  5000 <= n -> settles_within n (timers s) ->
  settles_within n (timers (validateCode e s)).
Proof.
  intros L H. unfold validateCode.
  destruct (String.length e <? 6); simpl; apply Forall_app;
    (split; [exact H|]); settle.
Qed.

Lemma handleCodeChange_settles (n : nat) (raw : string) (i : nat)
    (s : state) :
  5000 <= n -> settles_within n (timers s) ->
  settles_within n (timers (handleCodeChange raw i s)).
Proof.
  intros L H. unfold handleCodeChange.
  destruct (String.eqb (slice_last raw) ""); [now destruct (0 <? i)|].
  destruct (test_nondigit (slice_last raw)); [exact H|]. cbv zeta.
  destruct ((i =? 5) && _); [apply validateCode_settles; [exact L|]|];
    now destruct (negb false && (i <? 5)).
Qed.

Lemma dispatch_settles (e : event) (s s' : state) :
  is_user_event e = true ->
  settles_within (3000 + 4000) (timers s) ->
  dispatch e s = Some s' -> settles_within (3000 + 4000) (timers s').
Proof.
  intros U H. unfold dispatch, renderStep.
  destruct (String.eqb (step s) INITIAL);
    [|destruct (String.eqb (step s) FACIAL_RECOGNITION);
      [|destruct (String.eqb (step s) MANUAL_DNI);
        [|destruct (String.eqb (step s) MANUAL_CODE);
          [|destruct (String.eqb (step s) SUCCESS)]]]];
    destruct e as [b| | |x| |raw i| |ms];
    try discriminate;
    try (intros [= <-]; apply update_settles; [lia|]).
  - simpl. apply Forall_app. split; [exact H|].
    settle.
  - exact H.
  - destruct (isLoading s); [discriminate|].
    intros [= <-]. apply update_settles; [lia|exact H].
  - exact H.
  - exact H.
  - unfold handleDniSubmit.
    destruct (negb (String.length (dni s) =? 8)); simpl; apply Forall_app;
      (split; [exact H|]); settle.
  - exact H.
  - destruct (cellIndex_ok i); [|discriminate].
    intros [= <-]. apply update_settles; [lia|].
    apply handleCodeChange_settles; [lia|exact H].
  - apply validateCode_settles; [lia|exact H].
Qed.

Lemma run_settles (es : list event) (s0 s : state) :
  settles_within (3000 + 4000) (timers s0) -> run es s0 = Some s ->
  settles_within (3000 + 4000) (timers s).
Proof.
  apply (run_invariant
           (fun s' => settles_within (3000 + 4000) (timers s'))).
  - intros ms s1. apply wait_keeps_horizon.
  - exact dispatch_settles.
Qed.

Lemma settled (s : state) :
  timers s = [] -> guarded isLoading is_outcome s ->
  guarded shown is_expiry s ->
  notification s = None /\ isLoading s = false.
Proof.
  intros T GL GN. unfold guarded, pending in GL, GN. rewrite T in GL, GN.
  simpl in GL, GN. split.
  - unfold shown in GN. destruct (notification s); [|reflexivity].
    now specialize (GN eq_refl).
  - destruct (isLoading s); [|reflexivity]. now specialize (GL eq_refl).
Qed.

(** X12: The screen always settles.  Take any state reached from the first
    render and let seven seconds pass without touching a control: no
    callback is pending any more, no notification is shown and the loading
    flag is down.  (Seven seconds is the longest chain: camera probe 3000,
    move to Success 1500, call to [onLogin] 2500.) *)
Theorem reachable_settles (es : list event) (s : state) :
  run es initialState = Some s ->
  timers (wait (3000 + 4000) s) = [] /\
  notification (wait (3000 + 4000) s) = None /\
  isLoading (wait (3000 + 4000) s) = false.
Proof.
  intros R. split; [|apply settled].
  - apply wait_settles. apply (run_settles es initialState);
      [constructor|exact R].
  - apply wait_settles. apply (run_settles es initialState);
      [constructor|exact R].
  - apply wait_loading_guarded.
    apply (run_loading_guarded es initialState); [discriminate|exact R].
  - apply wait_shown_guarded.
    apply (run_shown_guarded es initialState); [discriminate|exact R].
Qed.

Lemma reachable_settles_witness :
  exists s,
    run [ClickStartFacialRecognition false; Elapse 1] initialState = Some s /\
    timers (wait (3000 + 4000) s) = [] /\
    notification (wait (3000 + 4000) s) = None /\
    isLoading (wait (3000 + 4000) s) = false.
Proof.
  eexists. split; [vm_compute; reflexivity|].
  apply (reachable_settles [ClickStartFacialRecognition false; Elapse 1]).
  vm_compute. reflexivity.
Defined.

(** ** Flows in time *)

(** X13: A notification shown while nothing else is pending stays for exactly
    2500 ms: it is on screen at every earlier instant and gone at that
    one. *)
Theorem showNotification_lifetime
    (s : state) (msg : string) (t : option NotificationType) (d : nat) :
  timers s = [] -> d < 2500 ->
  let s1 := showNotification msg t s in
  notification (wait d s1) = Some (mkNotification msg t) /\
  notification (wait 2500 s1) = None /\ timers (wait 2500 s1) = [].
Proof.
  intros T D s1.
  assert (T1 : timers s1 = [(2500, ClearNotification)]).
  { unfold s1, showNotification, setTimeout.
    cbn [timers setTimers setNotification]. now rewrite T. }
  split.
  - rewrite wait_idle; [reflexivity|]. rewrite T1.
    constructor; [simpl; lia|constructor].
  - rewrite (wait_single 2499 ClearNotification s1 T1).
    rewrite fire_ClearNotification. now split.
Qed.

Lemma showNotification_lifetime_witness :
  let s1 := showNotification "A" (Some type_info) initialState in
  notification (wait 2499 s1) = Some (mkNotification "A" (Some type_info)) /\
  notification (wait 2500 s1) = None.
Proof.
  pose proof (showNotification_lifetime initialState "A" (Some type_info)
                2499 eq_refl ltac:(lia)) as H.
  cbv zeta in H. destruct H as (H1 & H2 & _). exact (conj H1 H2).
Defined.

(** X14: The effect on entering ManualCode: 100 ms after a DNI of length 8 was
    submitted, whatever step-neutral callbacks were pending, the step is
    ManualCode and the focus has been requested on cell 0. *)
Theorem submit_focuses_first_cell (s : state) :
  step s = MANUAL_DNI -> String.length (dni s) = 8 ->
  neutral_pending s = true ->
  let s1 := wait 100 (update handleDniSubmit s) in
  step s1 = MANUAL_CODE /\ focused s1 = Some 0.
Proof.
  intros St L N s1. apply neutral_pending_spec in N.
  assert (E : update handleDniSubmit s
              = setTimeout FocusFirstCell 100
                  (setStep MANUAL_CODE
                     (showNotification
                        ("📧 Enviando código a correo asociado al DNI "
                         ++ dni s)%string (Some type_info) s))).
  { unfold update, handleDniSubmit. rewrite L. simpl. now rewrite St. }
  assert (W : waiting 100 FocusFirstCell (update handleDniSubmit s)).
  { exists (timers s ++ [(2500, ClearNotification)])%list, [].
    rewrite E. split; [reflexivity|]. split; [|constructor].
    apply Forall_app. split; [exact N|now repeat constructor]. }
  destruct (wait_fires FocusFirstCell 99 _ ltac:(lia) W) as (s0 & E0 & S0 & _).
  fold s1 in E0. rewrite E0. unfold fire.
  rewrite update_same_step by reflexivity. simpl.
  split; [|reflexivity]. rewrite S0, E. reflexivity.
Qed.

Lemma submit_focuses_first_cell_witness :
  let s := focusCell 3 (setDni "12345678" (setStep MANUAL_DNI initialState)) in
  focused (wait 100 (update handleDniSubmit s)) = Some 0.
Proof.
  intros s.
  exact (proj2 (submit_focuses_first_cell s eq_refl eq_refl eq_refl)).
Defined.

(** X15: The manual path to the end: from ManualCode with nothing pending,
    the reference code leads to Success, and 5000 ms after it was submitted
    [onLogin] has been called, once and not a millisecond earlier; the
    notification has expired and nothing is pending. *)
Theorem correct_code_calls_onLogin_once (s : state) :
  step s = MANUAL_CODE -> timers s = [] ->
  let s1 := update (validateCode "123456") s in
  fired (wait 4999 s1)
  = (fired s ++ [CodeOutcome "123456"; GoToSuccess; ClearNotification])%list
  /\
  fired (wait 5000 s1)
  = (fired s ++ [CodeOutcome "123456"; GoToSuccess; ClearNotification;
                 CallOnLogin])%list /\
  step (wait 5000 s1) = SUCCESS /\ timers (wait 5000 s1) = [] /\
  notification (wait 5000 s1) = None /\ isLoading (wait 5000 s1) = false.
Proof.
  intros St T. destruct s as [st dn c l n f t v fi]. simpl in St, T.
  subst st t. cbv zeta.
  set (s1 := update (validateCode "123456")
               (mkState MANUAL_CODE dn c l n f [] v fi)).
  assert (E1 : fired (wait 4999 s1)
               = (((fi ++ [CodeOutcome "123456"]) ++ [GoToSuccess])
                  ++ [ClearNotification])%list)
    by (vm_compute; reflexivity).
  assert (E2 : fired (wait 5000 s1)
               = ((((fi ++ [CodeOutcome "123456"]) ++ [GoToSuccess])
                   ++ [ClearNotification]) ++ [CallOnLogin])%list)
    by (vm_compute; reflexivity).
  rewrite E1, E2, <- !app_assoc.
  split; [reflexivity|]. split; [reflexivity|].
  split; [vm_compute; reflexivity|]. split; [vm_compute; reflexivity|].
  split; vm_compute; reflexivity.
Qed.

Lemma correct_code_calls_onLogin_once_witness :
  let s1 := update (validateCode "123456")
                   (setStep MANUAL_CODE initialState) in
  fired (wait 5000 s1)
  = [CodeOutcome "123456"; GoToSuccess; ClearNotification; CallOnLogin].
Proof.
  exact (proj1 (proj2 (correct_code_calls_onLogin_once
                         (setStep MANUAL_CODE initialState)
                         eq_refl eq_refl))).
Defined.

(** X16: The facial path left alone: from Initial with nothing pending, a
    working camera leads to Success after 4500 ms and to the call of
    [onLogin] after 7000 ms; a failing camera leads to ManualDni after 3000
    ms, with an error notification that is gone 2500 ms later, and
    [onLogin] is never called. *)
Theorem probe_left_alone (s : state) (cameraFails : bool) :
  step s = INITIAL -> timers s = [] ->
  let s1 := update (startFacialRecognition cameraFails) s in
  if cameraFails then
    step (wait 3000 s1) = MANUAL_DNI /\
    notified (wait 3000 s1) = Some type_error /\
    isLoading (wait 3000 s1) = false /\
    (forall d, step (wait d (wait 3000 s1)) = MANUAL_DNI) /\
    fired (wait (3000 + 2500) s1)
    = (fired s ++ [CameraOutcome true; ClearNotification])%list /\
    timers (wait (3000 + 2500) s1) = []
  else
    step (wait 4499 s1) = FACIAL_RECOGNITION /\
    step (wait 4500 s1) = SUCCESS /\
    fired (wait (3000 + 4000) s1)
    = (fired s ++ [CameraOutcome false; GoToSuccess; ClearNotification;
                   CallOnLogin])%list /\
    timers (wait (3000 + 4000) s1) = [].
Proof.
  intros St T. destruct s as [st dn c l n f t v fi]. simpl in St, T.
  subst st t. destruct cameraFails; cbv zeta.
  - set (s1 := update (startFacialRecognition true)
                 (mkState INITIAL dn c l n f [] v fi)).
    split; [vm_compute; reflexivity|]. split; [vm_compute; reflexivity|].
    split; [vm_compute; reflexivity|]. split.
    + intros d. rewrite wait_neutral; [vm_compute; reflexivity|].
      vm_compute. now repeat constructor.
    + assert (E : fired (wait (3000 + 2500) s1)
                  = ((fi ++ [CameraOutcome true]) ++ [ClearNotification])%list)
        by (vm_compute; reflexivity).
      rewrite E, <- !app_assoc. split; [reflexivity|].
      vm_compute. reflexivity.
  - set (s1 := update (startFacialRecognition false)
                 (mkState INITIAL dn c l n f [] v fi)).
    assert (E : fired (wait (3000 + 4000) s1)
                = ((((fi ++ [CameraOutcome false]) ++ [GoToSuccess])
                    ++ [ClearNotification]) ++ [CallOnLogin])%list)
      by (vm_compute; reflexivity).
    rewrite E, <- !app_assoc.
    split; [vm_compute; reflexivity|]. split; [vm_compute; reflexivity|].
    split; [reflexivity|]. vm_compute. reflexivity.
Qed.

Lemma probe_left_alone_witness :
  let s1 := update (startFacialRecognition false) initialState in
  step (wait 4499 s1) = FACIAL_RECOGNITION /\ step (wait 4500 s1) = SUCCESS.
Proof.
  pose proof (probe_left_alone initialState false eq_refl eq_refl) as H.
  cbv zeta iota in H. destruct H as (H1 & H2 & _). exact (conj H1 H2).
Defined.

(** ** The end of the flow *)

Lemma wait_neutral_all (d : nat) : forall s : state,
  all_neutral (timers s) -> all_neutral (timers (wait d s)).
Proof.
  induction d as [|d IH]; intros s A; [exact A|].
  simpl. apply IH. now destruct (tick_neutral s A).
Qed.

(** X17: Success is the end: its view has no control, so a run from a state in
    Success consists of waiting only, and, as long as the pending callbacks
    are the step-neutral ones, the step is Success for ever. *)
Theorem success_is_terminal (es : list event) : forall s s' : state,
  step s = SUCCESS -> neutral_pending s = true -> run es s = Some s' ->
  step s' = SUCCESS /\ forallb (fun e => negb (is_user_event e)) es = true.
Proof.
  induction es as [|e es IH]; intros s s' St N R; simpl in R.
  { injection R as <-. now split. }
  destruct (dispatch e s) as [s1|] eqn:D; [|discriminate].
  assert (U : is_user_event e = false).
  { unfold dispatch, renderStep in D. rewrite St in D. simpl in D.
    now destruct e. }
  destruct e; try discriminate. simpl in D. injection D as <-.
  apply neutral_pending_spec in N.
  destruct (IH (wait ms s) s') as [H1 H2]; [| |exact R|].
  - now rewrite wait_neutral.
  - apply neutral_pending_spec. now apply wait_neutral_all.
  - split; [exact H1|exact H2].
Qed.

Lemma success_is_terminal_witness :
  let s := wait 4500 (update (startFacialRecognition false) initialState) in
  step s = SUCCESS /\
  run [Elapse 2500; Elapse 1000] s = Some (wait 1000 (wait 2500 s)) /\
  step (wait 1000 (wait 2500 s)) = SUCCESS.
Proof.
  intros s.
  assert (H1 : step s = SUCCESS) by (vm_compute; reflexivity).
  assert (H2 : neutral_pending s = true) by (vm_compute; reflexivity).
  assert (H3 : run [Elapse 2500; Elapse 1000] s
               = Some (wait 1000 (wait 2500 s))) by reflexivity.
  split; [exact H1|]. split; [exact H3|].
  exact (proj1 (success_is_terminal [Elapse 2500; Elapse 1000] s _
                  H1 H2 H3)).
Defined.

(** ** The DNI *)

Lemma dni_update (h : handler) (s : state) : dni (update h s) = dni (h s).
Proof.
  unfold update. destruct (String.eqb (step s) (step (h s))); [reflexivity|].
  unfold stepEffect.
  destruct (String.eqb (step (h s)) MANUAL_CODE); [reflexivity|].
  now destruct (String.eqb (step (h s)) SUCCESS).
Qed.

Lemma dni_fire (s : state) (cb : callback) : dni (fire s cb) = dni s.
Proof.
  unfold fire. rewrite dni_update.
  destruct cb as [| | |[|]| |e]; try reflexivity.
  simpl. now destruct (String.eqb e "123456").
Qed.

Lemma dni_wait (ms : nat) (s : state) : dni (wait ms s) = dni s.
Proof.
  apply (wait_invariant (fun s' => dni s' = dni s)); [auto| |reflexivity].
  intros s0 cb H. now rewrite dni_fire.
Qed.

Lemma dni_handleCodeChange (raw : string) (i : nat) (s : state) :
  dni (handleCodeChange raw i s) = dni s.
Proof.
  unfold handleCodeChange.
  destruct (String.eqb (slice_last raw) ""); [now destruct (0 <? i)|].
  destruct (test_nondigit (slice_last raw)); [reflexivity|]. cbv zeta.
  destruct ((i =? 5) && _);
    [unfold validateCode; destruct (String.length _ <? 6)|];
    now destruct (negb false && (i <? 5)).
Qed.

Lemma dni_dispatch (e : event) (s s' : state) :
  types_dni e = false -> dispatch e s = Some s' -> dni s' = dni s.
Proof.
  intros U. unfold dispatch, renderStep.
  destruct (String.eqb (step s) INITIAL);
    [|destruct (String.eqb (step s) FACIAL_RECOGNITION);
      [|destruct (String.eqb (step s) MANUAL_DNI);
        [|destruct (String.eqb (step s) MANUAL_CODE);
          [|destruct (String.eqb (step s) SUCCESS)]]]];
    destruct e as [b| | |x| |raw i| |ms];
    try discriminate;
    try (intros [= <-]; first [apply dni_wait|now rewrite dni_update]).
  - destruct (isLoading s); [discriminate|].
    intros [= <-]. now rewrite dni_update.
  - intros [= <-]. rewrite dni_update. unfold handleDniSubmit.
    now destruct (negb (String.length (dni s) =? 8)).
  - destruct (cellIndex_ok i); [|discriminate].
    intros [= <-]. now rewrite dni_update, dni_handleCodeChange.
  - intros [= <-]. rewrite dni_update.
    unfold validateCode_default, validateCode.
    now destruct (String.length _ <? 6).
Qed.

(** X18: The DNI is the user's: along a run in which the DNI field is not
    edited, through every transition, every other control and every timer,
    the value of [dni] stays what it was. *)
Theorem dni_changes_only_by_typing (es : list event) : forall s0 s : state,
  forallb (fun e => negb (types_dni e)) es = true ->
  run es s0 = Some s -> dni s = dni s0.
Proof.
  induction es as [|e es IH]; intros s0 s F R; simpl in R.
  - now injection R as <-.
  - simpl in F. apply andb_true_iff in F as [Fe F].
    apply negb_true_iff in Fe.
    destruct (dispatch e s0) as [s1|] eqn:D; [|discriminate].
    rewrite (IH s1 s F R). now apply (dni_dispatch e).
Qed.

Lemma dni_changes_only_by_typing_witness :
  let s := setDni "12345678" (setStep MANUAL_DNI initialState) in
  exists s',
    run [SubmitDni; TypeCode "1" 0; ClickGoBack; ClickGoBack;
         ClickStartFacialRecognition true; Elapse 3000] s = Some s' /\
    dni s' = "12345678".
Proof.
  intros s.
  assert (R : exists s',
            run [SubmitDni; TypeCode "1" 0; ClickGoBack; ClickGoBack;
                 ClickStartFacialRecognition true; Elapse 3000] s = Some s').
  { eexists. vm_compute. reflexivity. }
  destruct R as [s' R]. exists s'. split; [exact R|].
  exact (dni_changes_only_by_typing
           [SubmitDni; TypeCode "1" 0; ClickGoBack; ClickGoBack;
            ClickStartFacialRecognition true; Elapse 3000] s s' eq_refl R).
Defined.

(** ** The guard of FacialRecognition *)

Lemma fire_while_probing (k : nat) (s : state) (cb : callback) :
  is_outcome cb = false -> probing k s -> probing k (fire s cb).
Proof.
  intros O (L & St & A). unfold probing.
  rewrite (fire_other_loading s cb O). split; [exact L|].
  unfold fire.
  destruct cb as [| | |b| |e]; try discriminate;
    try (rewrite update_same_step by reflexivity; split; [exact St|exact A]).
  unfold update. simpl.
  destruct (String.eqb (step s) SUCCESS); simpl; (split; [now right|]);
    [exact A|].
  apply Forall_app. split; [exact A|]. now repeat constructor.
Qed.

Lemma fold_fire_while_probing (k : nat) (cbs : list callback) :
  forall s : state,
  Forall (fun cb => is_outcome cb = false) cbs -> probing k s ->
  probing k (fold_left fire cbs s).
Proof.
  induction cbs as [|cb cbs IH]; intros s N P; [exact P|].
  inversion N as [|? ? Ncb Ncbs]; subst.
  simpl. apply IH; [exact Ncbs|]. now apply fire_while_probing.
Qed.

Lemma count_down_while_probing (k : nat) (ts : list (nat * callback)) :
  Forall (fun t => is_outcome (snd t) = true -> S k < fst t) ts ->
  Forall (fun cb => is_outcome cb = false)
         (map snd (List.filter is_due (map count_down ts))) /\
  Forall (fun t => is_outcome (snd t) = true -> k < fst t)
         (List.filter (fun t => negb (is_due t)) (map count_down ts)).
Proof.
  induction 1 as [|[n cb] ts H _ [IH1 IH2]]; [split; constructor|].
  simpl in H. cbn [map List.filter].
  destruct (is_due (count_down (n, cb))) eqn:E; simpl.
  - unfold is_due, count_down in E. simpl in E. apply Nat.eqb_eq in E.
    split; [|exact IH2]. constructor; [|exact IH1].
    destruct (is_outcome cb); [|reflexivity]. specialize (H eq_refl). lia.
  - split; [exact IH1|]. constructor; [|exact IH2].
    unfold count_down. simpl. intros O. specialize (H O). lia.
Qed.

Lemma tick_while_probing (k : nat) (s : state) :
  probing (S k) s -> probing k (tick s).
Proof.
  intros (L & St & A). destruct (count_down_while_probing k _ A) as [D R].
  unfold tick. apply fold_fire_while_probing; [exact D|].
  split; [exact L|]. split; [exact St|exact R].
Qed.

Lemma wait_while_probing (d : nat) : forall (k : nat) (s : state),
  probing (d + k) s -> probing k (wait d s).
Proof.
  induction d as [|d IH]; intros k s P; [exact P|].
  simpl. apply IH. apply tick_while_probing.
  now replace (S (d + k)) with (S d + k) by lia.
Qed.

Lemma probing_locks (k : nat) (e : event) (s : state) :
  is_user_event e = true -> probing k s -> dispatch e s = None.
Proof.
  intros U (L & [St|St] & _); unfold dispatch, renderStep; rewrite St, ?L;
    simpl; now destruct e.
Qed.

(** X19: The guard is enough when no outcome is pending.  Start the camera probe
    from Initial in such a state: until its 3000 ms are over no control
    responds, so the user cannot leave FacialRecognition, and the loading
    flag stays up. *)
Theorem probe_locks_controls
    (s : state) (cameraFails : bool) (d : nat) (e : event) :
  step s = INITIAL -> pending is_outcome s = false -> d < 3000 ->
  is_user_event e = true ->
  let s1 := wait d (update (startFacialRecognition cameraFails) s) in
  dispatch e s1 = None /\ isLoading s1 = true.
Proof.
  intros St P D U s1.
  assert (E : update (startFacialRecognition cameraFails) s
              = setTimeout (CameraOutcome cameraFails) 3000
                  (setIsLoading true (setStep FACIAL_RECOGNITION s))).
  { unfold update. simpl. now rewrite St. }
  assert (Pr : probing (2999 - d) s1).
  { unfold s1. apply wait_while_probing. rewrite E.
    split; [reflexivity|]. split; [now left|]. simpl.
    apply Forall_app. split.
    - unfold pending in P. apply List.Forall_forall. intros t In O.
      assert (X : existsb (fun t => is_outcome (snd t)) (timers s) = true)
        by (apply existsb_exists; now exists t).
      rewrite P in X. discriminate.
    - constructor; [|constructor]. simpl. intros _. lia. }
  split; [now apply (probing_locks (2999 - d))|]. now destruct Pr.
Qed.

Lemma probe_locks_controls_witness :
  let s := showNotification "x" None initialState in
  dispatch ClickGoBack
    (wait 2999 (update (startFacialRecognition false) s)) = None.
Proof.
  intros s.
  exact (proj1 (probe_locks_controls s false 2999 ClickGoBack
                  eq_refl eq_refl ltac:(lia) eq_refl)).
Defined.

(** ** The camera probe and the way back *)










